(** * Backend/server.js: registration, login, chat proxy and chat history

    A shallow embedding of the Express handlers of [src/Backend/server.js]
    and of the two collaborators they drive (the Mongoose models [User] and
    [Chat], and the AI21 completion endpoint reached through [fetch]).

    - JavaScript strings are sequences of UTF-16 code units.
    - A handler is a computation in a state-and-exception monad over the
      [World]: the two collections plus a trace of the storage operations
      and HTTP calls issued so far.
    - What the handler cannot decide (the clock, the bcrypt salt, whether a
      storage operation rejects, what the provider answers) is read from an
      [Env] supplied with each request.
    - Requests are handled one after the other; the interleaving of
      handlers at their [await] points is not modelled. *)

From Stdlib Require Import List Bool Arith ZArith NArith Lia.
From Stdlib Require Import Ascii String.
From Stdlib Require Import Permutation Sorted.
Import ListNotations.

Local Open Scope list_scope.
Local Set Warnings "-register-all".

(* ================================================================== *)
(** ** JavaScript strings *)

Module Js.

(** A string is its list of UTF-16 code units. *)
Definition jsstring : Type := list N.

(** The code units of an ASCII literal. *)
Definition lit (s : string) : jsstring :=
  List.map N_of_ascii (list_ascii_of_string s).

Fixpoint eqb (a b : jsstring) : bool :=
  match a, b with
  | [], [] => true
  | x :: a', y :: b' => N.eqb x y && eqb a' b'
  | _, _ => false
  end.

(** ECMAScript [WhiteSpace] and [LineTerminator] code points, the ones
    [String.prototype.trim] removes. *)
Definition is_ws (c : N) : bool :=
  existsb (N.eqb c)
    [0x09; 0x0A; 0x0B; 0x0C; 0x0D; 0x20; 0xA0; 0x1680;
     0x2000; 0x2001; 0x2002; 0x2003; 0x2004; 0x2005; 0x2006; 0x2007;
     0x2008; 0x2009; 0x200A; 0x2028; 0x2029; 0x202F; 0x205F; 0x3000;
     0xFEFF]%N.

Fixpoint trimStart (s : jsstring) : jsstring :=
  match s with
  | c :: s' => if is_ws c then trimStart s' else s
  | [] => []
  end.

Definition trimEnd (s : jsstring) : jsstring := rev (trimStart (rev s)).

Definition trim (s : jsstring) : jsstring := trimEnd (trimStart s).

(** A request field is either absent ([undefined]) or a string, as the
    interface declares it.  [truthy v] is the test [if (v)]; [!v] is its
    negation: it holds of an absent field and of the empty string. *)
Definition field : Type := option jsstring.

Definition truthy (v : field) : bool :=
  match v with
  | Some (_ :: _) => true
  | _ => false
  end.

(** The string held by a field that passed a [truthy] test. *)
Definition str (v : field) : jsstring :=
  match v with
  | Some s => s
  | None => []
  end.

End Js.

Import Js.

(* ================================================================== *)
(** ** JSON values and optional chaining *)

(** What [JSON.parse] can produce.  The payload of a number is never
    inspected by this program. *)
Inductive jval : Type :=
| JNull
| JBool (b : bool)
| JNum (n : Z)
| JStr (s : jsstring)
| JArr (items : list jval)
| JObj (members : list (jsstring * jval)).

(** Member lookup in a parsed object: when a key is repeated the last
    occurrence is the one [JSON.parse] keeps. *)
Fixpoint member (key : jsstring) (members : list (jsstring * jval))
  : option jval :=
  match members with
  | [] => None
  | (k, v) :: rest =>
      match member key rest with
      | Some v' => Some v'
      | None => if Js.eqb k key then Some v else None
      end
  end.

(** [v?.key], where [None] stands for [undefined].  Used with the keys
    [choices], [message] and [content] only, which no built-in prototype
    defines, so that on anything but an object the result is [undefined]. *)
Definition opt_get (key : jsstring) (v : option jval) : option jval :=
  match v with
  | Some (JObj members) => member key members
  | _ => None
  end.

(** [v?.[0]]. *)
Definition opt_first (v : option jval) : option jval :=
  match v with
  | Some (JArr items) => hd_error items
  | Some (JObj members) => member (lit "0") members
  | Some (JStr (c :: _)) => Some (JStr [c])
  | _ => None
  end.

(* ================================================================== *)
(** ** Data model *)

(** [userSchema]. *)
Module User.
Record doc : Type := mk {
  fullName : jsstring;
  username : jsstring;           (* unique, required *)
  email : option jsstring;       (* unique, sparse *)
  password : jsstring            (* required *)
}.
End User.

(** [chatSchema]. *)
Module Chat.
Record doc : Type := mk {
  username : jsstring;
  user : jsstring;
  bot : jsstring;
  createdAt : Z                  (* milliseconds since the epoch *)
}.
End Chat.

(** The body of the completion request built by [getAI21Response]. *)
Record Payload : Type := {
  model : jsstring;
  messages : list (jsstring * jsstring);   (* role, content *)
  max_tokens : nat
}.

(** What leaves the process: storage operations and HTTP calls. *)
Inductive Event : Type :=
| UserFindOne (username : jsstring)
| UserInsert (d : User.doc)
| ChatInsert (d : Chat.doc)
| ChatFind (username : jsstring)
| HttpPost (p : Payload).

Record World : Type := {
  users : list User.doc;
  chats : list Chat.doc;
  trace : list Event             (* oldest first *)
}.

(** The answer of the completion endpoint as [fetch] delivers it:
    the status, the body as text and the body as [resp.json()] parses it
    ([None] when it is not JSON). *)
Record HttpResponse : Type := {
  resp_status : nat;
  resp_text : jsstring;
  resp_json : option jval
}.

Inductive FetchOutcome : Type :=
| NetworkFailure                 (* [fetch] rejects *)
| Responded (resp : HttpResponse).

(** What the surroundings decide for one request. *)
Record Env : Type := {
  now : Z;                       (* [Date.now()] *)
  salt : jsstring;               (* the salt bcrypt draws *)
  db_read_fails : bool;          (* [findOne] / [find] rejects *)
  db_write_fails : bool;         (* [save] rejects for an operational reason *)
  fetch_outcome : FetchOutcome
}.

(** What a handler hands to [res.json]: an object literal, or the
    documents of a query. *)
Inductive Body : Type :=
| BObj (members : list (jsstring * jval))
| BDocs (docs : list Chat.doc).

Record Response : Type := {
  status : nat;
  body : Body
}.

(** [res.json(b)] and [res.status(code).json(b)]. *)
Definition res_json (b : Body) : Response := {| status := 200; body := b |}.
Definition res_status_json (code : nat) (b : Body) : Response :=
  {| status := code; body := b |}.

(** The password-hashing primitive: [bcrypt.hash(data, rounds)], with the
    salt it draws made explicit, and [bcrypt.compare(data, encrypted)]. *)
Class Bcrypt : Type := {
  bcrypt_hash : jsstring -> nat -> jsstring -> jsstring;
  bcrypt_compare : jsstring -> jsstring -> bool
}.

(* ================================================================== *)
(** ** Exceptions and the handler monad *)

Inductive Exn : Type :=
| ProviderError (status : nat)   (* [new Error(`AI21 error: ${resp.status}`)] *)
| EmptyReply                     (* [new Error("AI21 returned no content")] *)
| TransportError                 (* rejection of [fetch] *)
| InvalidJson                    (* rejection of [resp.json()] *)
| TypeError                      (* [content?.trim is not a function] *)
| ValidationError                (* Mongoose: a required path is missing *)
| DuplicateKey                   (* MongoDB: a unique index is violated *)
| StorageError.                  (* the storage operation itself failed *)

Inductive Outcome (A : Type) : Type :=
| Return (a : A)
| Throw (e : Exn).

Arguments Return {A} a.
Arguments Throw {A} e.

Definition M (A : Type) : Type := World -> Outcome A * World.

Definition ret {A : Type} (a : A) : M A := fun w => (Return a, w).

Definition throw {A : Type} (e : Exn) : M A := fun w => (Throw e, w).

Definition bind {A B : Type} (m : M A) (k : A -> M B) : M B :=
  fun w =>
    match m w with
    | (Return a, w') => k a w'
    | (Throw e, w') => (Throw e, w')
    end.

(** [try { m } catch (err) { h err }]. *)
Definition try_catch {A : Type} (m : M A) (h : Exn -> M A) : M A :=
  fun w =>
    match m w with
    | (Return a, w') => (Return a, w')
    | (Throw e, w') => h e w'
    end.

Declare Scope js_scope.
Delimit Scope js_scope with js.
Notation "x <- m ;; k" := (bind m (fun x => k))
  (at level 61, m at next level, right associativity) : js_scope.
Notation "m ;; k" := (bind m (fun _ => k))
  (at level 61, right associativity) : js_scope.

Definition emit (e : Event) : M unit :=
  fun w => (Return tt,
            {| users := users w; chats := chats w; trace := trace w ++ [e] |}).

(* ================================================================== *)
(** ** The models, the completion client and the handlers *)

Section Server.

Context {bcrypt : Bcrypt}.

Local Open Scope js_scope.

(** *** [User] *)

(** [User.findOne({ username })]: the first document with that username,
    or [null]. *)
Definition User_findOne (env : Env) (username : jsstring)
  : M (option User.doc) :=
  emit (UserFindOne username) ;;
  if db_read_fails env then throw StorageError
  else fun w =>
    (Return (find (fun d => Js.eqb (User.username d) username) (users w)), w).

(** [new User({ fullName, username, password })]: no [email]. *)
Definition new_User (fullName username password : jsstring) : User.doc :=
  User.mk fullName username None password.

(** The [required] validators of [userSchema]; the validator of a string
    path rejects the empty string. *)
Definition User_validate (d : User.doc) : bool :=
  negb (Js.eqb (User.username d) []) && negb (Js.eqb (User.password d) []).

(** The unique index on [username]. *)
Definition username_taken (store : list User.doc) (d : User.doc) : bool :=
  existsb (fun d' => Js.eqb (User.username d') (User.username d)) store.

(** The unique sparse index on [email]: documents without an email are
    not indexed. *)
Definition email_taken (store : list User.doc) (d : User.doc) : bool :=
  match User.email d with
  | None => false
  | Some e =>
      existsb (fun d' => match User.email d' with
                         | Some e' => Js.eqb e' e
                         | None => false
                         end) store
  end.

(** [doc.save()] on a new [User] document. *)
Definition User_save (env : Env) (d : User.doc) : M unit :=
  if negb (User_validate d) then throw ValidationError
  else
    emit (UserInsert d) ;;
    if db_write_fails env then throw StorageError
    else fun w =>
      if username_taken (users w) d || email_taken (users w) d
      then (Throw DuplicateKey, w)
      else (Return tt,
            {| users := users w ++ [d]; chats := chats w; trace := trace w |}).

(** *** [Chat] *)

(** [new Chat({ username, user, bot })]: [createdAt] defaults to
    [Date.now()]. *)
Definition new_Chat (env : Env) (username user bot : jsstring) : Chat.doc :=
  Chat.mk username user bot (now env).

(** [doc.save()] on a new [Chat] document. *)
Definition Chat_save (env : Env) (d : Chat.doc) : M unit :=
  emit (ChatInsert d) ;;
  if db_write_fails env then throw StorageError
  else fun w =>
    (Return tt,
     {| users := users w; chats := chats w ++ [d]; trace := trace w |}).

(** [.sort({ createdAt: 1 })]: ascending.  Documents with equal
    [createdAt] keep the order of the collection here; MongoDB promises no
    order among them, and nothing below depends on it. *)
Fixpoint insert_by_createdAt (d : Chat.doc) (sorted : list Chat.doc)
  : list Chat.doc :=
  match sorted with
  | [] => [d]
  | d' :: rest =>
      if (Chat.createdAt d <=? Chat.createdAt d')%Z
      then d :: d' :: rest
      else d' :: insert_by_createdAt d rest
  end.

Definition sort_by_createdAt (docs : list Chat.doc) : list Chat.doc :=
  fold_right insert_by_createdAt [] docs.

(** The documents a [{ username }] filter selects. *)
Definition chats_of (username : jsstring) (store : list Chat.doc)
  : list Chat.doc :=
  filter (fun d => Js.eqb (Chat.username d) username) store.

(** [Chat.find({ username }).sort({ createdAt: 1 })]. *)
Definition Chat_find_sorted (env : Env) (username : jsstring)
  : M (list Chat.doc) :=
  emit (ChatFind username) ;;
  if db_read_fails env then throw StorageError
  else fun w => (Return (sort_by_createdAt (chats_of username (chats w))), w).

(** *** The completion client *)

(** [fetch(url, { method: "POST", ..., body: JSON.stringify(payload) })]. *)
Definition fetch (env : Env) (payload : Payload) : M HttpResponse :=
  emit (HttpPost payload) ;;
  match fetch_outcome env with
  | NetworkFailure => throw TransportError
  | Responded resp => ret resp
  end.

(** [resp.ok]. *)
Definition resp_ok (resp : HttpResponse) : bool :=
  (200 <=? resp_status resp) && (resp_status resp <=? 299).

(** [await resp.json()]. *)
Definition json_of (resp : HttpResponse) : M jval :=
  match resp_json resp with
  | Some j => ret j
  | None => throw InvalidJson
  end.

(** [json?.choices?.[0]?.message?.content]. *)
Definition reply_field (json : jval) : option jval :=
  opt_get (lit "content")
    (opt_get (lit "message") (opt_first (opt_get (lit "choices") (Some json)))).

(** [content?.trim()]: [undefined] on [undefined] and [null], the trimmed
    string on a string, and a [TypeError] on anything else, which has no
    callable [trim]. *)
Definition opt_trim (content : option jval) : M (option jsstring) :=
  match content with
  | None | Some JNull => ret None
  | Some (JStr s) => ret (Some (trim s))
  | Some _ => throw TypeError
  end.

(** [v || ""] on a string or [undefined]. *)
Definition or_empty (v : option jsstring) : jsstring :=
  match v with
  | Some (c :: s) => c :: s
  | _ => []
  end.

Definition getAI21Response (env : Env) (message : jsstring) : M jsstring :=
  let payload := {| model := lit "jamba-mini";
                    messages := [(lit "user", message)];
                    max_tokens := 256 |} in
  resp <- fetch env payload ;;
  if negb (resp_ok resp) then
    throw (ProviderError (resp_status resp))
  else
    json <- json_of resp ;;
    trimmed <- opt_trim (reply_field json) ;;
    let reply := or_empty trimmed in
    if negb (truthy (Some reply)) then throw EmptyReply
    else ret reply.

(** *** Request bodies and fixed messages *)

Record RegisterBody : Type := {
  reg_fullName : field;
  reg_username : field;
  reg_password : field
}.

Record LoginBody : Type := {
  login_username : field;
  login_password : field
}.

Record ChatBody : Type := {
  chat_message : field;
  chat_username : field
}.

(** [{ success, message }]. *)
Definition success_message (success : bool) (message : string) : Body :=
  BObj [(lit "success", JBool success); (lit "message", JStr (lit message))].

(** [{ reply }]. *)
Definition reply_body (reply : jsstring) : Body :=
  BObj [(lit "reply", JStr reply)].

(** U+26A0 U+FE0F, the warning sign that opens both fallback replies. *)
Definition warning_sign : jsstring := [0x26A0; 0xFE0F]%N.

Definition degraded_reply : jsstring :=
  warning_sign
  ++ lit " Sorry, I couldn't process that right now. Please try again later.".

Definition chat_error_reply : jsstring :=
  warning_sign ++ lit " Error processing your request.".

(** *** [app.post("/register")] *)

Definition register (env : Env) (req : RegisterBody) : M Response :=
  try_catch
    (let fullName := reg_fullName req in
     let username := reg_username req in
     let password := reg_password req in
     if negb (truthy fullName) || negb (truthy username)
        || negb (truthy password)
     then ret (res_status_json 400
                 (success_message false "All fields required"))
     else
       existingUser <- User_findOne env (str username) ;;
       match existingUser with
       | Some _ =>
           ret (res_status_json 400
                  (success_message false "User already exists"))
       | None =>
           let hashedPassword := bcrypt_hash (str password) 10 (salt env) in
           let newUser :=
             new_User (str fullName) (str username) hashedPassword in
           User_save env newUser ;;
           ret (res_json (success_message true "Registration successful"))
       end)
    (fun err =>
       ret (res_status_json 500
              (success_message false "Registration failed"))).

(** *** [app.post("/login")] *)

Definition login (env : Env) (req : LoginBody) : M Response :=
  try_catch
    (let username := login_username req in
     let password := login_password req in
     if negb (truthy username) || negb (truthy password)
     then ret (res_status_json 400
                 (success_message false "All fields required"))
     else
       found <- User_findOne env (str username) ;;
       match found with
       | None =>
           ret (res_status_json 404
                  (success_message false "User not found"))
       | Some user =>
           let isMatch := bcrypt_compare (str password) (User.password user) in
           if negb isMatch
           then ret (res_status_json 401
                       (success_message false "Incorrect password"))
           else ret (res_json
                       (BObj [(lit "success", JBool true);
                              (lit "message", JStr (lit "Login successful"));
                              (lit "username", JStr (User.username user))]))
       end)
    (fun err =>
       ret (res_status_json 500 (success_message false "Login failed"))).

(** *** [app.post("/api/chat")] *)

Definition chat (env : Env) (req : ChatBody) : M Response :=
  try_catch
    (let message := chat_message req in
     let username := chat_username req in
     if negb (truthy message)
     then ret (res_status_json 400 (reply_body (lit "Message required")))
     else
       reply <- try_catch (getAI21Response env (str message))
                          (fun aiErr => ret degraded_reply) ;;
       (if truthy username
        then Chat_save env (new_Chat env (str username) (str message) reply)
        else ret tt) ;;
       ret (res_json (reply_body reply)))
    (fun err => ret (res_status_json 500 (reply_body chat_error_reply))).

(** *** [app.get("/api/history")] *)

Definition history (env : Env) (username : field) : M Response :=
  if negb (truthy username) then ret (res_json (BDocs []))
  else
    try_catch
      (found <- Chat_find_sorted env (str username) ;;
       ret (res_json (BDocs found)))
      (fun err => ret (res_status_json 500 (BDocs []))).

(** *** [app.get("/api/chat/test")] *)

Definition chat_test : M Response :=
  ret (res_json
         (BObj [(lit "message",
                 JStr ([0x2705]%N ++ lit " Chat API is working!"))])).

(** *** The server *)

Inductive Request : Type :=
| PostRegister (req : RegisterBody)
| PostLogin (req : LoginBody)
| PostChat (req : ChatBody)
| GetHistory (username : field)
| GetChatTest.

Definition handler (env : Env) (r : Request) : M Response :=
  match r with
  | PostRegister req => register env req
  | PostLogin req => login env req
  | PostChat req => chat env req
  | GetHistory username => history env username
  | GetChatTest => chat_test
  end.

(** One request served: the response sent and the world left behind.  The
    second branch is Express's own answer to a handler that rejects; no
    handler here does (see [handler_returns]). *)
Definition serve (env : Env) (r : Request) (w : World) : Response * World :=
  match handler env r w with
  | (Return resp, w') => (resp, w')
  | (Throw _, w') => (res_status_json 500 (BObj []), w')
  end.

(** A sequence of requests served in order, each with its environment;
    the transcript pairs every request with the response it got. *)
Fixpoint run (reqs : list (Env * Request)) (w : World)
  : list (Env * Request * Response) * World :=
  match reqs with
  | [] => ([], w)
  | (env, r) :: rest =>
      let (resp, w1) := serve env r w in
      let (log, w2) := run rest w1 in
      ((env, r, resp) :: log, w2)
  end.

End Server.

(* ================================================================== *)
(** ** Concrete collaborators, for running the handlers *)

(** A stand-in for bcrypt: the hash is a marker, the salt, a separator and
    the data; verification looks for the data after the separator that
    follows the marker.  It is used on concrete inputs only; the general
    statements below hold for every [Bcrypt]. *)
Definition toy_hash (data : jsstring) (rounds : nat) (salt : jsstring)
  : jsstring :=
  lit "$toy$" ++ salt ++ lit "$" ++ data.

Fixpoint after_last_dollar (acc s : jsstring) : jsstring :=
  match s with
  | [] => acc
  | c :: s' => if N.eqb c 0x24 then after_last_dollar s' s'
               else after_last_dollar acc s'
  end.

Definition toy_compare (data encrypted : jsstring) : bool :=
  Js.eqb (firstn 5 encrypted) (lit "$toy$")
  && Js.eqb (after_last_dollar [] encrypted) data.

Definition toy_bcrypt : Bcrypt :=
  {| bcrypt_hash := toy_hash; bcrypt_compare := toy_compare |}.

(** An environment in which storage works and the provider answers
    [reply] in a well-formed envelope at time [t]. *)
Definition envelope (reply : jsstring) : jval :=
  JObj [(lit "choices",
         JArr [JObj [(lit "message",
                      JObj [(lit "role", JStr (lit "assistant"));
                            (lit "content", JStr reply)])]])].

Definition env_ok (t : Z) (reply : jsstring) : Env :=
  {| now := t; salt := lit "s4lt";
     db_read_fails := false; db_write_fails := false;
     fetch_outcome :=
       Responded {| resp_status := 200; resp_text := [];
                    resp_json := Some (envelope reply) |} |}.

(** The same with the provider unreachable. *)
Definition env_provider_down (t : Z) : Env :=
  {| now := t; salt := lit "s4lt";
     db_read_fails := false; db_write_fails := false;
     fetch_outcome := NetworkFailure |}.

(** The provider unreachable and storage rejecting every operation. *)
Definition env_all_down (t : Z) : Env :=
  {| now := t; salt := lit "s4lt";
     db_read_fails := true; db_write_fails := true;
     fetch_outcome := NetworkFailure |}.

(** A provider answering with HTTP status [code] and no usable body. *)
Definition env_http_status (code : nat) : Env :=
  {| now := 0; salt := lit "s4lt";
     db_read_fails := false; db_write_fails := false;
     fetch_outcome :=
       Responded {| resp_status := code; resp_text := lit "error";
                    resp_json := None |} |}.

Definition empty_world : World := {| users := []; chats := []; trace := [] |}.

(** Inputs of the scenarios worked out below. *)
Definition register_body (fullName username password : string)
  : RegisterBody :=
  {| reg_fullName := Some (lit fullName);
     reg_username := Some (lit username);
     reg_password := Some (lit password) |}.

Definition login_body (username password : string) : LoginBody :=
  {| login_username := Some (lit username);
     login_password := Some (lit password) |}.

Definition chat_body (message username : string) : ChatBody :=
  {| chat_message := Some (lit message);
     chat_username := Some (lit username) |}.

Definition anonymous_chat_body (message : string) : ChatBody :=
  {| chat_message := Some (lit message); chat_username := None |}.

(** A store in which [ab] is already registered and has chatted once. *)
Definition world_with_ab : World :=
  {| users := [User.mk (lit "A B") (lit "ab") None
                 (toy_hash (lit "pw1") 10 (lit "s4lt"))];
     chats := [Chat.mk (lit "ab") (lit "hi") (lit "hello") 7];
     trace := [] |}.

(** The world with one more event in its trace. *)
Definition traced (e : Event) (w : World) : World :=
  {| users := users w; chats := chats w; trace := trace w ++ [e] |}.

(** The completion request for [message]. *)
Definition payload_of (message : jsstring) : Payload :=
  {| model := lit "jamba-mini";
     messages := [(lit "user", message)];
     max_tokens := 256 |}.

(** Ascending [createdAt]. *)
Definition createdAt_le (a b : Chat.doc) : Prop :=
  (Chat.createdAt a <= Chat.createdAt b)%Z.

(** The unique index on [username] holds of a store. *)
Definition unique_usernames (store : list User.doc) : Prop :=
  NoDup (List.map User.username store).


(** *** What [res.json(history)] sends *)

(** The values of the members of a document as it is sent. *)
Inductive wire : Type :=
| WString (s : jsstring)
| WDate (ms : Z)                 (* sent as the ISO 8601 text of the instant *)
| WNumber (n : Z)
| WObjectId.                     (* the identifier Mongoose gave the document;
                                    its value is not modelled *)

(** A [Chat] document as [JSON.stringify] renders it: Mongoose's [_id],
    the paths of [chatSchema] under their schema names, and Mongoose's
    version key [__v], which is 0 on a document that was never updated. *)
Definition Chat_toJSON (d : Chat.doc) : list (jsstring * wire) :=
  [(lit "_id", WObjectId);
   (lit "username", WString (Chat.username d));
   (lit "user", WString (Chat.user d));
   (lit "bot", WString (Chat.bot d));
   (lit "createdAt", WDate (Chat.createdAt d));
   (lit "__v", WNumber 0)].

(** The member of a sent object under a name, if there is one. *)
Definition wire_member (key : jsstring) (members : list (jsstring * wire))
  : option wire :=
  match find (fun m => Js.eqb (fst m) key) members with
  | Some m => Some (snd m)
  | None => None
  end.

(** The entries a response body carries when it is a sequence of
    documents. *)
Definition sent_entries (b : Body) : list (list (jsstring * wire)) :=
  match b with
  | BDocs docs => List.map Chat_toJSON docs
  | BObj _ => []
  end.

(* ================================================================== *)
(** ** Strings and fields *)

Lemma eqb_refl (a : jsstring) : Js.eqb a a = true.
Proof.
  induction a as [|x a IH]; simpl; [reflexivity|].
  now rewrite N.eqb_refl, IH.
Qed.

Lemma eqb_eq (a b : jsstring) : Js.eqb a b = true <-> a = b.
Proof.
  split.
  - revert b; induction a as [|x a IH]; intros [|y b] H; simpl in H;
      try discriminate; [reflexivity|].
    apply andb_true_iff in H as [Hx Hab].
    apply N.eqb_eq in Hx. f_equal; auto.
  - intros ->. apply eqb_refl.
Qed.

Lemma eqb_neq (a b : jsstring) : Js.eqb a b = false <-> a <> b.
Proof.
  rewrite <- eqb_eq. destruct (Js.eqb a b); split; congruence.
Qed.

Lemma eqb_sym (a b : jsstring) : Js.eqb a b = Js.eqb b a.
Proof.
  destruct (Js.eqb a b) eqn:Hab.
  - apply eqb_eq in Hab. subst. symmetry. apply eqb_refl.
  - symmetry. apply eqb_neq. apply eqb_neq in Hab. congruence.
Qed.

(** A field that passes [if (v)] holds a non-empty string. *)
Lemma truthy_true (v : field) :
  truthy v = true -> v = Some (str v) /\ str v <> [].
Proof.
  destruct v as [[|c s]|]; simpl; intros H; try discriminate.
  split; [reflexivity | discriminate].
Qed.

(** A field fails [if (v)] exactly when it is absent or empty. *)
Lemma truthy_false (v : field) :
  truthy v = false <-> v = None \/ v = Some [].
Proof.
  destruct v as [[|c s]|]; simpl; split; intros H; auto; try discriminate.
  destruct H as [H|H]; discriminate.
Qed.

Lemma truthy_or_empty (s : jsstring) :
  truthy (Some s) = negb (Js.eqb s []).
Proof. destruct s; reflexivity. Qed.

Lemma degraded_reply_nonempty : degraded_reply <> [].
Proof. discriminate. Qed.

(* ================================================================== *)
(** ** Sorting by [createdAt] *)

Lemma insert_by_createdAt_perm (d : Chat.doc) (l : list Chat.doc) :
  Permutation (d :: l) (insert_by_createdAt d l).
Proof.
  induction l as [|d' l IH]; simpl; [apply Permutation_refl|].
  destruct (Chat.createdAt d <=? Chat.createdAt d')%Z.
  - apply Permutation_refl.
  - eapply perm_trans; [apply perm_swap|]. now apply perm_skip.
Qed.

Lemma sort_by_createdAt_perm (l : list Chat.doc) :
  Permutation l (sort_by_createdAt l).
Proof.
  induction l as [|d l IH]; simpl; [constructor|].
  eapply perm_trans; [apply perm_skip, IH|].
  apply insert_by_createdAt_perm.
Qed.

Lemma insert_by_createdAt_sorted (d : Chat.doc) (l : list Chat.doc) :
  StronglySorted createdAt_le l ->
  StronglySorted createdAt_le (insert_by_createdAt d l).
Proof.
  induction 1 as [|d' l Hs IH Hall]; simpl.
  - repeat constructor.
  - destruct (Chat.createdAt d <=? Chat.createdAt d')%Z eqn:Hle.
    + apply Z.leb_le in Hle.
      constructor; [constructor; assumption|].
      constructor; [exact Hle|].
      eapply Forall_impl; [|exact Hall].
      unfold createdAt_le. intros; lia.
    + apply Z.leb_gt in Hle.
      constructor; [assumption|].
      eapply Permutation_Forall; [apply insert_by_createdAt_perm|].
      constructor; [unfold createdAt_le; lia | exact Hall].
Qed.

Lemma sort_by_createdAt_sorted (l : list Chat.doc) :
  StronglySorted createdAt_le (sort_by_createdAt l).
Proof.
  induction l as [|d l IH]; simpl; [constructor|].
  now apply insert_by_createdAt_sorted.
Qed.

Lemma In_chats_of (u : jsstring) (store : list Chat.doc) (d : Chat.doc) :
  In d (chats_of u store) <-> In d store /\ Chat.username d = u.
Proof.
  unfold chats_of. rewrite filter_In, eqb_eq. reflexivity.
Qed.

(* ================================================================== *)
(** ** The completion client *)

Ltac unfold_m :=
  unfold bind, try_catch, ret, throw, emit, traced in *.

Lemma resp_ok_2xx (resp : HttpResponse) :
  resp_ok resp = true <-> 200 <= resp_status resp <= 299.
Proof.
  unfold resp_ok. rewrite andb_true_iff, !Nat.leb_le. reflexivity.
Qed.

Lemma fetch_spec (env : Env) (p : Payload) (w : World) :
  fetch env p w =
  (match fetch_outcome env with
   | NetworkFailure => Throw TransportError
   | Responded resp => Return resp
   end, traced (HttpPost p) w).
Proof.
  unfold fetch; unfold_m; simpl. now destruct (fetch_outcome env).
Qed.

(** The client sends exactly one request, whatever comes back, and
    touches neither collection. *)
Lemma getAI21Response_world (env : Env) (message : jsstring) (w : World) :
  snd (getAI21Response env message w) = traced (HttpPost (payload_of message)) w.
Proof.
  unfold getAI21Response, bind. fold (payload_of message).
  rewrite fetch_spec.
  destruct (fetch_outcome env) as [|resp]; [reflexivity|].
  destruct (resp_ok resp); simpl; [|reflexivity].
  unfold json_of. destruct (resp_json resp) as [json|]; [|reflexivity].
  unfold ret at 1.
  unfold opt_trim.
  destruct (reply_field json) as [[| | |s| |]|]; try reflexivity.
  unfold ret at 1. destruct (or_empty (Some (trim s))); reflexivity.
Qed.

(** Its result depends on the environment only. *)
Lemma getAI21Response_outcome (env : Env) (message : jsstring) (w w0 : World) :
  fst (getAI21Response env message w) = fst (getAI21Response env message w0).
Proof.
  unfold getAI21Response, bind. rewrite !fetch_spec.
  destruct (fetch_outcome env) as [|resp]; [reflexivity|].
  destruct (resp_ok resp); simpl; [|reflexivity].
  unfold json_of. destruct (resp_json resp) as [json|]; [|reflexivity].
  unfold ret at 1 3.
  unfold opt_trim.
  destruct (reply_field json) as [[| | |s| |]|]; try reflexivity.
  unfold ret at 1 3. destruct (or_empty (Some (trim s))); reflexivity.
Qed.

(** X20. In an envelope whose [choices] is an array starting with an
    object, whose [message] is an object with a [content] member, the
    reply field is that content: the other choices are not looked at. *)
Lemma reply_field_first_choice
      (top choice message : list (jsstring * jval)) (others : list jval)
      (content : jval) :
  member (lit "choices") top = Some (JArr (JObj choice :: others)) ->
  member (lit "message") choice = Some (JObj message) ->
  member (lit "content") message = Some content ->
  reply_field (JObj top) = Some content.
Proof.
  intros Htop Hchoice Hmsg. unfold reply_field.
  cbn [opt_get]. rewrite Htop. cbn [opt_first hd_error opt_get].
  rewrite Hchoice. cbn [opt_get]. exact Hmsg.
Qed.

(** X17. When [fetch] itself rejects, the client fails with
    [TransportError]; the request had been sent, and neither collection
    was touched. *)
Lemma getAI21Response_transport_error
      (env : Env) (message : jsstring) (w : World) :
  fetch_outcome env = NetworkFailure ->
  getAI21Response env message w =
  (Throw TransportError, traced (HttpPost (payload_of message)) w).
Proof.
  intros H. unfold getAI21Response, bind. rewrite fetch_spec, H. reflexivity.
Qed.

(** X18. A failure that is none of the three named kinds: a 2xx answer
    whose body is not JSON makes the client fail with the rejection of
    [resp.json()], not with [EmptyReply]. *)
Lemma getAI21Response_invalid_json
      (env : Env) (message : jsstring) (w : World) (resp : HttpResponse) :
  fetch_outcome env = Responded resp ->
  resp_ok resp = true ->
  resp_json resp = None ->
  getAI21Response env message w =
  (Throw InvalidJson, traced (HttpPost (payload_of message)) w).
Proof.
  intros H Hok Hj. unfold getAI21Response, bind.
  rewrite fetch_spec, H, Hok. simpl. unfold json_of. now rewrite Hj.
Qed.

(** X19. Another one: a 2xx JSON answer whose reply field is present but
    neither a string nor [null] (a number, a boolean, an array, an object)
    makes the client fail with a [TypeError], because such a value has no
    [trim] to call. *)
Lemma getAI21Response_type_error
      (env : Env) (message : jsstring) (w : World) (resp : HttpResponse)
      (json content : jval) :
  fetch_outcome env = Responded resp ->
  resp_ok resp = true ->
  resp_json resp = Some json ->
  reply_field json = Some content ->
  content <> JNull ->
  (forall s, content <> JStr s) ->
  getAI21Response env message w =
  (Throw TypeError, traced (HttpPost (payload_of message)) w).
Proof.
  intros H Hok Hj Hc Hnull Hstr. unfold getAI21Response, bind.
  rewrite fetch_spec, H, Hok. simpl. unfold json_of. rewrite Hj.
  unfold ret at 1. rewrite Hc. unfold opt_trim.
  destruct content; try reflexivity; [congruence | now destruct (Hstr s)].
Qed.


(* ================================================================== *)
(** ** Chat *)

Lemma Chat_save_spec (env : Env) (d : Chat.doc) (w : World) :
  Chat_save env d w =
  if db_write_fails env
  then (Throw StorageError, traced (ChatInsert d) w)
  else (Return tt,
        {| users := users w; chats := chats w ++ [d];
           trace := trace w ++ [ChatInsert d] |}).
Proof.
  unfold Chat_save; unfold_m; simpl. now destruct (db_write_fails env).
Qed.

(** The reply the handler goes on with after the inner [try]/[catch]. *)
Lemma chat_spec (env : Env) (req : ChatBody) (w : World) :
  truthy (chat_message req) = true ->
  chat env req w =
  let message := str (chat_message req) in
  let reply := match fst (getAI21Response env message w) with
               | Return r => r
               | Throw _ => degraded_reply
               end in
  let w1 := traced (HttpPost (payload_of message)) w in
  if truthy (chat_username req) then
    let d := new_Chat env (str (chat_username req)) message reply in
    if db_write_fails env
    then (Return (res_status_json 500 (reply_body chat_error_reply)),
          traced (ChatInsert d) w1)
    else (Return (res_json (reply_body reply)),
          {| users := users w; chats := chats w ++ [d];
             trace := trace w1 ++ [ChatInsert d] |})
  else (Return (res_json (reply_body reply)), w1).
Proof.
  intros Hmsg. cbv zeta. unfold chat.
  unfold try_catch at 1. unfold bind at 1. rewrite Hmsg. cbn [negb].
  unfold try_catch at 1.
  pose proof (getAI21Response_world env (str (chat_message req)) w) as Hw.
  destruct (getAI21Response env (str (chat_message req)) w) as [o w1].
  cbn [fst snd] in *. subst w1.
  assert (Hgo : forall reply,
             bind (if truthy (chat_username req)
                   then Chat_save env
                          (new_Chat env (str (chat_username req))
                             (str (chat_message req)) reply)
                   else ret tt)
                  (fun _ => ret (res_json (reply_body reply)))
                  (traced (HttpPost (payload_of (str (chat_message req)))) w)
             = if truthy (chat_username req)
               then (if db_write_fails env
                     then (Throw StorageError,
                           traced (ChatInsert
                                     (new_Chat env (str (chat_username req))
                                        (str (chat_message req)) reply))
                             (traced (HttpPost
                                        (payload_of (str (chat_message req))))
                                w))
                     else (Return (res_json (reply_body reply)),
                           {| users := users w;
                              chats := chats w
                                       ++ [new_Chat env
                                             (str (chat_username req))
                                             (str (chat_message req)) reply];
                              trace := trace
                                         (traced
                                            (HttpPost
                                               (payload_of
                                                  (str (chat_message req))))
                                            w)
                                       ++ [ChatInsert
                                             (new_Chat env
                                                (str (chat_username req))
                                                (str (chat_message req))
                                                reply)] |}))
               else (Return (res_json (reply_body reply)),
                     traced (HttpPost (payload_of (str (chat_message req))))
                       w)).
  { intros reply. unfold bind.
    destruct (truthy (chat_username req)); [|reflexivity].
    rewrite Chat_save_spec. now destruct (db_write_fails env). }
  destruct o as [r|e].
  - rewrite Hgo.
    destruct (truthy (chat_username req)); [|reflexivity].
    now destruct (db_write_fails env).
  - unfold ret at 1. rewrite Hgo.
    destruct (truthy (chat_username req)); [|reflexivity].
    now destruct (db_write_fails env).
Qed.

(** The handler never rejects. *)
Lemma chat_returns (env : Env) (req : ChatBody) (w : World) :
  exists resp, fst (chat env req w) = Return resp.
Proof.
  destruct (truthy (chat_message req)) eqn:Hmsg.
  - rewrite (chat_spec env req w Hmsg). cbv zeta.
    destruct (truthy (chat_username req)); [|eexists; reflexivity].
    destruct (db_write_fails env); eexists; reflexivity.
  - unfold chat, try_catch, bind. rewrite Hmsg. eexists; reflexivity.
Qed.

Lemma chat_falsy_message (env : Env) (req : ChatBody) (w : World) :
  truthy (chat_message req) = false ->
  chat env req w
  = (Return (res_status_json 400 (reply_body (lit "Message required"))), w).
Proof.
  intros H. unfold chat, try_catch, bind. rewrite H. reflexivity.
Qed.

(** C6. A chat request whose message is absent or empty is answered at
    once with status 400 and the reply "Message required"; the world is
    left exactly as it was: no request was sent to the provider, no
    storage operation was issued, no entry was added to the log. *)
Theorem chat_missing_message (env : Env) (req : ChatBody) (w : World) :
  chat_message req = None \/ chat_message req = Some [] ->
  chat env req w
  = (Return (res_status_json 400 (reply_body (lit "Message required"))), w).
Proof.
  intros H. apply truthy_false in H. now apply chat_falsy_message.
Qed.

(** C1, as amended. When the completion client fails, with whatever
    exception, on a chat request with a non-empty message: the fallback
    reply is a fixed non-empty string; the handler answers with status 200
    and that reply whenever no username is supplied or the log append
    succeeds; and the one case in which it answers with status 500 is a
    supplied username whose log append fails. *)
Theorem chat_degrades_on_provider_failure
        (env : Env) (req : ChatBody) (w : World) (e : Exn) :
  truthy (chat_message req) = true ->
  fst (getAI21Response env (str (chat_message req)) w) = Throw e ->
  degraded_reply <> []
  /\ (truthy (chat_username req) = false \/ db_write_fails env = false ->
      fst (chat env req w) = Return (res_json (reply_body degraded_reply)))
  /\ (truthy (chat_username req) = true -> db_write_fails env = true ->
      fst (chat env req w)
      = Return (res_status_json 500 (reply_body chat_error_reply))).
Proof.
  intros Hmsg Hfail. split; [exact degraded_reply_nonempty|].
  rewrite (chat_spec env req w Hmsg). cbv zeta. rewrite Hfail.
  split.
  - intros [Hu | Hdb].
    + now rewrite Hu.
    + rewrite Hdb. now destruct (truthy (chat_username req)).
  - intros Hu Hdb. now rewrite Hu, Hdb.
Qed.

Lemma chat_degrades_on_provider_failure_witness :
  truthy (chat_message (chat_body "yo" "ab")) = true
  /\ fst (getAI21Response (env_provider_down 3)
            (str (chat_message (chat_body "yo" "ab"))) world_with_ab)
     = Throw TransportError
  /\ fst (chat (env_provider_down 3) (chat_body "yo" "ab") world_with_ab)
     = Return (res_json (reply_body degraded_reply)).
Proof.
  split; [reflexivity|]. split; [reflexivity|].
  apply (chat_degrades_on_provider_failure
           (env_provider_down 3) (chat_body "yo" "ab") world_with_ab
           TransportError eq_refl eq_refl).
  right. reflexivity.
Defined.

(** C1, as stated, fails: with the provider unreachable, a username
    supplied and storage rejecting the append, the answer is status 500
    with the generic error reply, not a success carrying the fallback. *)
Lemma chat_provider_failure_then_append_failure :
  truthy (chat_message (chat_body "hi" "bob")) = true
  /\ fst (getAI21Response (env_all_down 0) (lit "hi") empty_world)
     = Throw TransportError
  /\ fst (chat (env_all_down 0) (chat_body "hi" "bob") empty_world)
     = Return (res_status_json 500 (reply_body chat_error_reply))
  /\ fst (chat (env_all_down 0) (chat_body "hi" "bob") empty_world)
     <> Return (res_json (reply_body degraded_reply)).
Proof.
  repeat split; try reflexivity. discriminate.
Qed.

(** X21. The status of a chat answer does not depend on what the provider
    does: two environments that agree on whether the storage write fails
    give the same status to the same request in the same world. *)
Lemma chat_status_ignores_provider
      (env env' : Env) (req : ChatBody) (w : World) (resp resp' : Response) :
  db_write_fails env = db_write_fails env' ->
  fst (chat env req w) = Return resp ->
  fst (chat env' req w) = Return resp' ->
  status resp = status resp'.
Proof.
  intros Hdb. destruct (truthy (chat_message req)) eqn:Hmsg.
  - rewrite !(chat_spec _ req w Hmsg). cbv zeta. rewrite <- Hdb.
    destruct (truthy (chat_username req)), (db_write_fails env);
      cbn [fst]; intros H H'; inversion H; inversion H'; reflexivity.
  - rewrite !(chat_falsy_message _ req w Hmsg).
    cbn [fst]; intros H H'; inversion H; inversion H'; reflexivity.
Qed.

(** C2. On a chat request with a non-empty message a reply is produced,
    the provider's or the fallback.  With a supplied username an append of
    the entry made of that username, the original message, that reply and
    the current time is issued; when it succeeds the entry is the new last
    document of the log and the reply is returned; when it fails the
    answer is status 500 and the log is unchanged.  Without a username the
    reply is returned and nothing but the provider call happened. *)
Theorem chat_appends_log_entry (env : Env) (req : ChatBody) (w : World) :
  truthy (chat_message req) = true ->
  let message := str (chat_message req) in
  exists reply : jsstring,
    (fst (getAI21Response env message w) = Return reply
     \/ (exists e, fst (getAI21Response env message w) = Throw e)
        /\ reply = degraded_reply)
    /\ (truthy (chat_username req) = true ->
        let entry :=
          Chat.mk (str (chat_username req)) message reply (now env) in
        In (ChatInsert entry) (trace (snd (chat env req w)))
        /\ (db_write_fails env = false ->
            fst (chat env req w) = Return (res_json (reply_body reply))
            /\ chats (snd (chat env req w)) = chats w ++ [entry])
        /\ (db_write_fails env = true ->
            fst (chat env req w)
            = Return (res_status_json 500 (reply_body chat_error_reply))
            /\ chats (snd (chat env req w)) = chats w))
    /\ (truthy (chat_username req) = false ->
        fst (chat env req w) = Return (res_json (reply_body reply))
        /\ snd (chat env req w) = traced (HttpPost (payload_of message)) w).
Proof.
  intros Hmsg message.
  exists (match fst (getAI21Response env message w) with
          | Return r => r
          | Throw _ => degraded_reply
          end).
  split.
  - destruct (fst (getAI21Response env message w)) as [r|e];
      [now left | right; split; [now exists e | reflexivity]].
  - rewrite (chat_spec env req w Hmsg). cbv zeta. fold message.
    split.
    + intros Hu. rewrite Hu.
      destruct (db_write_fails env); cbn [fst snd chats trace traced].
      * split; [apply in_or_app; right; now left|].
        split; [discriminate | intros _; split; reflexivity].
      * split; [apply in_or_app; right; now left|].
        split; [intros _; split; reflexivity | discriminate].
    + intros Hu. rewrite Hu. split; reflexivity.
Qed.

Lemma chat_appends_log_entry_witness :
  truthy (chat_message (chat_body "yo" "ab")) = true
  /\ chats (snd (chat (env_provider_down 3) (chat_body "yo" "ab")
                   world_with_ab))
     = chats world_with_ab
       ++ [Chat.mk (lit "ab") (lit "yo") degraded_reply 3].
Proof.
  split; [reflexivity|].
  destruct (chat_appends_log_entry
              (env_provider_down 3) (chat_body "yo" "ab") world_with_ab
              eq_refl) as [reply [Hreply [Hsupplied _]]].
  destruct (Hsupplied eq_refl) as [_ [Hok _]].
  destruct (Hok eq_refl) as [_ Hchats].
  rewrite Hchats. do 2 f_equal.
  destruct Hreply as [Hret | [_ Hdeg]]; [discriminate Hret | now rewrite Hdeg].
Defined.

(* ================================================================== *)
(** ** Registration and login *)

Lemma User_findOne_spec (env : Env) (u : jsstring) (w : World) :
  User_findOne env u w =
  (if db_read_fails env then Throw StorageError
   else Return (find (fun d => Js.eqb (User.username d) u) (users w)),
   traced (UserFindOne u) w).
Proof.
  unfold User_findOne; unfold_m; simpl. now destruct (db_read_fails env).
Qed.

Lemma User_save_spec (env : Env) (d : User.doc) (w : World) :
  User_save env d w =
  if negb (User_validate d) then (Throw ValidationError, w)
  else if db_write_fails env
       then (Throw StorageError, traced (UserInsert d) w)
       else if username_taken (users w) d || email_taken (users w) d
            then (Throw DuplicateKey, traced (UserInsert d) w)
            else (Return tt,
                  {| users := users w ++ [d]; chats := chats w;
                     trace := trace w ++ [UserInsert d] |}).
Proof.
  unfold User_save. destruct (negb (User_validate d)); [reflexivity|].
  unfold_m; simpl. destruct (db_write_fails env); [reflexivity|].
  simpl. now destruct (username_taken (users w) d || email_taken (users w) d).
Qed.

Lemma find_username_none (u : jsstring) (store : list User.doc) :
  find (fun d => Js.eqb (User.username d) u) store = None
  <-> (forall d, In d store -> User.username d <> u).
Proof.
  split.
  - intros H d Hin Heq.
    apply (find_none _ _ H) in Hin. apply eqb_neq in Hin. contradiction.
  - intros H. induction store as [|d store IH]; [reflexivity|].
    simpl. destruct (Js.eqb (User.username d) u) eqn:E.
    + apply eqb_eq in E. exfalso. apply (H d); [now left | exact E].
    + apply IH. intros d' Hin. apply H. now right.
Qed.

Lemma find_username_some (u : jsstring) (store : list User.doc) (d : User.doc) :
  find (fun d => Js.eqb (User.username d) u) store = Some d ->
  In d store /\ User.username d = u.
Proof.
  intros H. apply find_some in H. now rewrite eqb_eq in H.
Qed.

Lemma username_taken_false (store : list User.doc) (d : User.doc) :
  username_taken store d = false
  <-> (forall d', In d' store -> User.username d' <> User.username d).
Proof.
  unfold username_taken. split.
  - intros H d' Hin Heq.
    assert (Hex : existsb (fun x => Js.eqb (User.username x) (User.username d))
                    store = true).
    { apply existsb_exists. exists d'. split; [exact Hin|]. now apply eqb_eq. }
    congruence.
  - intros H.
    destruct (existsb _ store) eqn:E; [|reflexivity].
    apply existsb_exists in E as [d' [Hin Heq]]. apply eqb_eq in Heq.
    exfalso. now apply (H d').
Qed.

Lemma email_taken_new_User (store : list User.doc)
      (fullName username password : jsstring) :
  email_taken store (new_User fullName username password) = false.
Proof. reflexivity. Qed.

Lemma unique_usernames_snoc (store : list User.doc) (d : User.doc) :
  unique_usernames store ->
  username_taken store d = false ->
  unique_usernames (store ++ [d]).
Proof.
  unfold unique_usernames. intros Hnd Hfree.
  rewrite map_app. simpl.
  apply NoDup_app.
  - exact Hnd.
  - constructor; [intros [] | constructor].
  - intros u Hin [Heq|[]].
    apply in_map_iff in Hin as [d' [Hu Hin]].
    rewrite username_taken_false in Hfree.
    apply (Hfree d' Hin). congruence.
Qed.

Section Credentials.

Context {bcrypt : Bcrypt}.

(** The handler of [/register], branch by branch. *)
Lemma register_spec (env : Env) (req : RegisterBody) (w : World) :
  register env req w =
  if negb (truthy (reg_fullName req)) || negb (truthy (reg_username req))
     || negb (truthy (reg_password req))
  then (Return (res_status_json 400
                  (success_message false "All fields required")), w)
  else
    let username := str (reg_username req) in
    let w1 := traced (UserFindOne username) w in
    let failed :=
      Return (res_status_json 500
                (success_message false "Registration failed")) in
    if db_read_fails env then (failed, w1)
    else
      match find (fun d => Js.eqb (User.username d) username) (users w) with
      | Some _ =>
          (Return (res_status_json 400
                     (success_message false "User already exists")), w1)
      | None =>
          let newUser :=
            new_User (str (reg_fullName req)) username
              (bcrypt_hash (str (reg_password req)) 10 (salt env)) in
          if negb (User_validate newUser) then (failed, w1)
          else if db_write_fails env
               then (failed, traced (UserInsert newUser) w1)
               else if username_taken (users w) newUser
                    then (failed, traced (UserInsert newUser) w1)
                    else (Return (res_json
                                    (success_message true
                                       "Registration successful")),
                          {| users := users w ++ [newUser];
                             chats := chats w;
                             trace := trace w1 ++ [UserInsert newUser] |})
      end.
Proof.
  unfold register. unfold try_catch at 1.
  destruct (negb (truthy (reg_fullName req)) || negb (truthy (reg_username req))
            || negb (truthy (reg_password req))); [reflexivity|].
  cbv zeta. unfold bind at 1. rewrite User_findOne_spec.
  destruct (db_read_fails env); [reflexivity|].
  destruct (find _ (users w)) as [d|]; [reflexivity|].
  unfold bind. rewrite User_save_spec.
  destruct (negb (User_validate _)); [reflexivity|].
  destruct (db_write_fails env); [reflexivity|].
  cbn [users traced]. rewrite email_taken_new_User, orb_false_r.
  now destruct (username_taken (users w) _).
Qed.

(** The handler of [/login], branch by branch. *)
Lemma login_spec (env : Env) (req : LoginBody) (w : World) :
  login env req w =
  if negb (truthy (login_username req)) || negb (truthy (login_password req))
  then (Return (res_status_json 400
                  (success_message false "All fields required")), w)
  else
    let username := str (login_username req) in
    (if db_read_fails env
     then Return (res_status_json 500 (success_message false "Login failed"))
     else
       match find (fun d => Js.eqb (User.username d) username) (users w) with
       | None =>
           Return (res_status_json 404
                     (success_message false "User not found"))
       | Some user =>
           if bcrypt_compare (str (login_password req)) (User.password user)
           then Return (res_json
                          (BObj [(lit "success", JBool true);
                                 (lit "message",
                                  JStr (lit "Login successful"));
                                 (lit "username",
                                  JStr (User.username user))]))
           else Return (res_status_json 401
                          (success_message false "Incorrect password"))
       end,
     traced (UserFindOne username) w).
Proof.
  unfold login. unfold try_catch at 1.
  destruct (negb (truthy (login_username req))
            || negb (truthy (login_password req))); [reflexivity|].
  cbv zeta. unfold bind at 1. rewrite User_findOne_spec.
  destruct (db_read_fails env); [reflexivity|].
  destruct (find _ (users w)) as [d|]; [|reflexivity].
  now destruct (bcrypt_compare _ _).
Qed.

Lemma find_username_unique
      (u : jsstring) (store : list User.doc) (d : User.doc) :
  unique_usernames store ->
  In d store ->
  User.username d = u ->
  find (fun d => Js.eqb (User.username d) u) store = Some d.
Proof.
  unfold unique_usernames. intros Hnd Hin Hu.
  induction store as [|d0 store IH]; [destruct Hin|].
  simpl in Hnd. inversion Hnd as [|? ? Hnotin Hnd']; subst.
  simpl. destruct Hin as [-> | Hin].
  - now rewrite eqb_refl.
  - destruct (Js.eqb (User.username d0) (User.username d)) eqn:E.
    + apply eqb_eq in E. exfalso. apply Hnotin. rewrite E.
      now apply in_map.
    + now apply IH.
Qed.

(** C3, as amended. Two registrations with the same username, both with
    all three fields non-empty, the username not yet in the store, storage
    working and the hash non-empty: the first answers 200 "Registration
    successful", the second answers 400 with [{success: false, message:
    "User already exists"}], the store holds the one new document after
    both, and usernames are still unique if they were before. *)
Theorem register_same_username_twice
        (env1 env2 : Env) (r1 r2 : RegisterBody) (w : World) :
  truthy (reg_fullName r1) = true ->
  truthy (reg_username r1) = true ->
  truthy (reg_password r1) = true ->
  truthy (reg_fullName r2) = true ->
  truthy (reg_password r2) = true ->
  reg_username r2 = reg_username r1 ->
  (forall d, In d (users w) -> User.username d <> str (reg_username r1)) ->
  db_read_fails env1 = false ->
  db_write_fails env1 = false ->
  db_read_fails env2 = false ->
  bcrypt_hash (str (reg_password r1)) 10 (salt env1) <> [] ->
  let first := register env1 r1 w in
  let second := register env2 r2 (snd first) in
  let newUser :=
    new_User (str (reg_fullName r1)) (str (reg_username r1))
      (bcrypt_hash (str (reg_password r1)) 10 (salt env1)) in
  fst first
  = Return (res_json (success_message true "Registration successful"))
  /\ fst second
     = Return (res_status_json 400
                 (success_message false "User already exists"))
  /\ users (snd second) = users w ++ [newUser]
  /\ (unique_usernames (users w) -> unique_usernames (users (snd second))).
Proof.
  intros Hf1 Hu1 Hp1 Hf2 Hp2 Hsame Hfresh Hr1 Hw1 Hr2 Hhash first second newUser.
  assert (Hvalid : User_validate newUser = true).
  { unfold User_validate, newUser. cbn [new_User User.username User.password].
    apply truthy_true in Hu1 as [_ Hne].
    apply andb_true_iff. split; apply negb_true_iff, eqb_neq; assumption. }
  assert (Hfree : username_taken (users w) newUser = false).
  { apply username_taken_false. exact Hfresh. }
  assert (Hfirst : first
                   = (Return (res_json (success_message true
                                          "Registration successful")),
                      {| users := users w ++ [newUser]; chats := chats w;
                         trace := trace (traced (UserFindOne
                                                   (str (reg_username r1))) w)
                                  ++ [UserInsert newUser] |})).
  { unfold first. rewrite register_spec. rewrite Hf1, Hu1, Hp1. cbn [negb orb].
    cbv zeta. rewrite Hr1.
    apply find_username_none in Hfresh. rewrite Hfresh.
    fold newUser. rewrite Hvalid, Hw1, Hfree. reflexivity. }
  assert (Hfound : exists d,
             find (fun d => Js.eqb (User.username d) (str (reg_username r1)))
               (users w ++ [newUser]) = Some d).
  { destruct (find _ (users w ++ [newUser])) as [d|] eqn:E; [now exists d|].
    exfalso. rewrite find_username_none in E.
    apply (E newUser); [apply in_or_app; right; now left | reflexivity]. }
  destruct Hfound as [d Hd].
  assert (Hsecond : second
                    = (Return (res_status_json 400
                                 (success_message false "User already exists")),
                       traced (UserFindOne (str (reg_username r1)))
                         (snd first))).
  { unfold second. rewrite register_spec. rewrite Hsame, Hf2, Hu1, Hp2.
    cbn [negb orb]. cbv zeta. rewrite Hr2.
    rewrite Hfirst. cbn [snd users]. rewrite Hd. reflexivity. }
  split; [now rewrite Hfirst|]. split; [now rewrite Hsecond|].
  assert (Husers : users (snd second) = users w ++ [newUser]).
  { rewrite Hsecond, Hfirst. reflexivity. }
  split; [exact Husers|].
  intros Huniq. rewrite Husers. now apply unique_usernames_snoc.
Qed.


(** C5, as amended. A login with non-empty username and password whose
    user lookup does not fail: when no user has that username the answer
    is 404 "User not found"; when the lookup finds a user and the password
    does not verify against the stored hash the answer is 401 "Incorrect
    password"; when it verifies the answer is 200 with [success: true] and
    the username.  The store is not modified. *)
Theorem login_cases (env : Env) (req : LoginBody) (w : World) :
  truthy (login_username req) = true ->
  truthy (login_password req) = true ->
  db_read_fails env = false ->
  let username := str (login_username req) in
  let password := str (login_password req) in
  ((forall d, In d (users w) -> User.username d <> username) ->
   fst (login env req w)
   = Return (res_status_json 404 (success_message false "User not found")))
  /\ (forall user : User.doc,
         find (fun d => Js.eqb (User.username d) username) (users w)
         = Some user ->
         In user (users w) /\ User.username user = username
         /\ (bcrypt_compare password (User.password user) = false ->
             fst (login env req w)
             = Return (res_status_json 401
                         (success_message false "Incorrect password")))
         /\ (bcrypt_compare password (User.password user) = true ->
             fst (login env req w)
             = Return (res_json
                         (BObj [(lit "success", JBool true);
                                (lit "message", JStr (lit "Login successful"));
                                (lit "username", JStr username)]))))
  /\ users (snd (login env req w)) = users w
  /\ chats (snd (login env req w)) = chats w.
Proof.
  intros Hu Hp Hdb username password.
  rewrite login_spec. rewrite Hu, Hp, Hdb. cbn [negb orb]. cbv zeta.
  fold username password. cbn [fst snd].
  split; [|split; [|split; reflexivity]].
  - intros Hnone. apply find_username_none in Hnone. now rewrite Hnone.
  - intros user Hfind. rewrite Hfind.
    destruct (find_username_some _ _ _ Hfind) as [Hin Hname].
    split; [exact Hin|]. split; [exact Hname|].
    split; intros Hcmp; rewrite Hcmp; [reflexivity|].
    now rewrite Hname.
Qed.

(** C10. Whatever a registration does, the store afterwards is the store
    before, or the store before followed by one document made of the
    supplied full name, the supplied username and the hashed password,
    with no email; and a document without an email never collides on the
    sparse email index, whatever the store holds. *)
Theorem register_never_sets_email
        (env : Env) (req : RegisterBody) (w : World) :
  let newUser :=
    User.mk (str (reg_fullName req)) (str (reg_username req)) None
      (bcrypt_hash (str (reg_password req)) 10 (salt env)) in
  (users (snd (register env req w)) = users w
   \/ users (snd (register env req w)) = users w ++ [newUser])
  /\ (forall d, In d (users (snd (register env req w))) ->
                In d (users w) \/ User.email d = None)
  /\ (forall store : list User.doc, email_taken store newUser = false).
Proof.
  intros newUser.
  assert (H : users (snd (register env req w)) = users w
              \/ users (snd (register env req w)) = users w ++ [newUser]).
  { rewrite register_spec.
    destruct (negb (truthy (reg_fullName req))
              || negb (truthy (reg_username req))
              || negb (truthy (reg_password req))); [now left|].
    cbv zeta. destruct (db_read_fails env); [now left|].
    destruct (find _ (users w)); [now left|].
    destruct (negb (User_validate _)); [now left|].
    destruct (db_write_fails env); [now left|].
    destruct (username_taken (users w) _); [now left | now right]. }
  split; [exact H|]. split; [|reflexivity].
  intros d Hin. destruct H as [H|H]; rewrite H in Hin; [now left|].
  apply in_app_or in Hin as [Hin|[<-|[]]]; [now left | now right].
Qed.

End Credentials.

(* ================================================================== *)
(** ** History *)

Lemma history_spec (env : Env) (username : field) (w : World) :
  history env username w =
  if negb (truthy username) then (Return (res_json (BDocs [])), w)
  else
    (if db_read_fails env then Return (res_status_json 500 (BDocs []))
     else Return (res_json
                    (BDocs (sort_by_createdAt
                              (chats_of (str username) (chats w))))),
     traced (ChatFind (str username)) w).
Proof.
  unfold history. destruct (negb (truthy username)); [reflexivity|].
  unfold Chat_find_sorted; unfold_m; simpl.
  now destruct (db_read_fails env).
Qed.

(** C7, as amended. A history request with a supplied username whose
    storage query does not fail is answered with exactly the entries of
    that username, each as often as the log holds it, in ascending
    [createdAt] order; the answer is the empty sequence when there are
    none.  When the query fails the answer is status 500 with the empty
    sequence.  A request without a username is answered with the empty
    sequence and the world is untouched: storage is not queried. *)
Theorem history_cases (env : Env) (username : field) (w : World) :
  (truthy username = true ->
   db_read_fails env = false ->
   exists docs : list Chat.doc,
     history env username w
     = (Return (res_json (BDocs docs)), traced (ChatFind (str username)) w)
     /\ Permutation docs (chats_of (str username) (chats w))
     /\ (forall d, In d docs
                   <-> In d (chats w) /\ Chat.username d = str username)
     /\ StronglySorted createdAt_le docs
     /\ ((forall d, In d (chats w) -> Chat.username d <> str username) ->
         docs = []))
  /\ (truthy username = true ->
      db_read_fails env = true ->
      history env username w
      = (Return (res_status_json 500 (BDocs [])),
         traced (ChatFind (str username)) w))
  /\ (truthy username = false ->
      history env username w = (Return (res_json (BDocs [])), w)).
Proof.
  rewrite history_spec. split; [|split].
  - intros Hu Hdb. rewrite Hu, Hdb. cbn [negb].
    exists (sort_by_createdAt (chats_of (str username) (chats w))).
    pose proof (sort_by_createdAt_perm (chats_of (str username) (chats w)))
      as Hperm.
    split; [reflexivity|].
    split; [now apply Permutation_sym|].
    split.
    { intros d. rewrite <- In_chats_of. split; intros Hin.
      - eapply Permutation_in; [apply Permutation_sym, Hperm | exact Hin].
      - eapply Permutation_in; [exact Hperm | exact Hin]. }
    split; [apply sort_by_createdAt_sorted|].
    intros Hnone.
    assert (Hempty : chats_of (str username) (chats w) = []).
    { destruct (chats_of (str username) (chats w)) as [|d l] eqn:E;
        [reflexivity|].
      assert (Hin : In d (chats_of (str username) (chats w)))
        by (rewrite E; now left).
      apply In_chats_of in Hin as [Hin Hname].
      exfalso. now apply (Hnone d). }
    now rewrite Hempty.
  - intros Hu Hdb. now rewrite Hu, Hdb.
  - intros Hu. now rewrite Hu.
Qed.

(** C7, as stated, fails: [ab] has an entry in the log, yet when the
    storage query is rejected the answer is status 500 with the empty
    sequence. *)
Lemma history_storage_down_hides_entries :
  truthy (Some (lit "ab")) = true
  /\ chats_of (lit "ab") (chats world_with_ab)
     = [Chat.mk (lit "ab") (lit "hi") (lit "hello") 7]
  /\ fst (history (env_all_down 0) (Some (lit "ab")) world_with_ab)
     = Return (res_status_json 500 (BDocs [])).
Proof. repeat split. Qed.

Lemma history_cases_witness :
  truthy (Some (lit "ab")) = true
  /\ db_read_fails (env_ok 9 []) = false
  /\ fst (history (env_ok 9 []) (Some (lit "ab")) world_with_ab)
     = Return (res_json
                 (BDocs [Chat.mk (lit "ab") (lit "hi") (lit "hello") 7])).
Proof.
  split; [reflexivity|]. split; [reflexivity|].
  destruct (history_cases (env_ok 9 []) (Some (lit "ab")) world_with_ab)
    as [Hok _].
  destruct (Hok eq_refl eq_refl) as [docs [Heq [Hperm _]]].
  rewrite Heq. cbn [fst]. do 3 f_equal.
  apply Permutation_length_1_inv, Permutation_sym. exact Hperm.
Defined.

(* ================================================================== *)
(** ** The server over a sequence of requests *)

Section Runs.

Context {bcrypt : Bcrypt}.

Lemma register_returns (env : Env) (req : RegisterBody) (w : World) :
  exists resp, fst (register env req w) = Return resp.
Proof.
  rewrite register_spec.
  destruct (negb (truthy (reg_fullName req)) || negb (truthy (reg_username req))
            || negb (truthy (reg_password req))); [eexists; reflexivity|].
  cbv zeta. destruct (db_read_fails env); [eexists; reflexivity|].
  destruct (find _ (users w)); [eexists; reflexivity|].
  destruct (negb (User_validate _)); [eexists; reflexivity|].
  destruct (db_write_fails env); [eexists; reflexivity|].
  destruct (username_taken (users w) _); eexists; reflexivity.
Qed.

Lemma login_returns (env : Env) (req : LoginBody) (w : World) :
  exists resp, fst (login env req w) = Return resp.
Proof.
  rewrite login_spec.
  destruct (negb (truthy (login_username req))
            || negb (truthy (login_password req))); [eexists; reflexivity|].
  cbv zeta. cbn [fst]. destruct (db_read_fails env); [eexists; reflexivity|].
  destruct (find _ (users w)); [|eexists; reflexivity].
  destruct (bcrypt_compare _ _); eexists; reflexivity.
Qed.

Lemma history_returns (env : Env) (username : field) (w : World) :
  exists resp, fst (history env username w) = Return resp.
Proof.
  rewrite history_spec.
  destruct (negb (truthy username)); [eexists; reflexivity|].
  cbn [fst]. destruct (db_read_fails env); eexists; reflexivity.
Qed.

(** No handler rejects: every request gets the response its handler
    built. *)
Lemma handler_returns (env : Env) (r : Request) (w : World) :
  exists resp, fst (handler env r w) = Return resp.
Proof.
  destruct r as [req|req|req|u|]; cbn [handler].
  - apply register_returns.
  - apply login_returns.
  - apply chat_returns.
  - apply history_returns.
  - eexists; reflexivity.
Qed.

Lemma serve_handler (env : Env) (r : Request) (w : World) (resp : Response) :
  fst (handler env r w) = Return resp ->
  serve env r w = (resp, snd (handler env r w)).
Proof.
  unfold serve. destruct (handler env r w) as [o w']. cbn [fst snd].
  now intros ->.
Qed.

Lemma register_chats (env : Env) (req : RegisterBody) (w : World) :
  chats (snd (register env req w)) = chats w.
Proof.
  rewrite register_spec.
  destruct (negb (truthy (reg_fullName req)) || negb (truthy (reg_username req))
            || negb (truthy (reg_password req))); [reflexivity|].
  cbv zeta. destruct (db_read_fails env); [reflexivity|].
  destruct (find _ (users w)); [reflexivity|].
  destruct (negb (User_validate _)); [reflexivity|].
  destruct (db_write_fails env); [reflexivity|].
  destruct (username_taken (users w) _); reflexivity.
Qed.

Lemma login_world (env : Env) (req : LoginBody) (w : World) :
  users (snd (login env req w)) = users w
  /\ chats (snd (login env req w)) = chats w.
Proof.
  rewrite login_spec.
  destruct (negb (truthy (login_username req))
            || negb (truthy (login_password req))); split; reflexivity.
Qed.

Lemma history_world (env : Env) (username : field) (w : World) :
  users (snd (history env username w)) = users w
  /\ chats (snd (history env username w)) = chats w.
Proof.
  rewrite history_spec. destruct (negb (truthy username)); split; reflexivity.
Qed.

Lemma chat_users (env : Env) (req : ChatBody) (w : World) :
  users (snd (chat env req w)) = users w.
Proof.
  destruct (truthy (chat_message req)) eqn:Hmsg.
  - rewrite (chat_spec env req w Hmsg). cbv zeta.
    destruct (truthy (chat_username req)); [|reflexivity].
    destruct (db_write_fails env); reflexivity.
  - now rewrite (chat_falsy_message env req w Hmsg).
Qed.

(** Where a log entry comes from: a document the log holds after a
    request was either there before, or the request is a chat call that
    supplied the entry's username and message, was answered with status 200
    and the entry's reply, at the entry's time. *)
Lemma serve_chats (env : Env) (r : Request) (w : World) (d : Chat.doc) :
  In d (chats (snd (serve env r w))) ->
  In d (chats w)
  \/ exists req : ChatBody,
      r = PostChat req
      /\ chat_username req = Some (Chat.username d)
      /\ chat_message req = Some (Chat.user d)
      /\ fst (serve env r w) = res_json (reply_body (Chat.bot d))
      /\ Chat.createdAt d = now env.
Proof.
  destruct (handler_returns env r w) as [resp Hresp].
  rewrite (serve_handler env r w resp Hresp). cbn [fst snd].
  destruct r as [req|req|req|u|]; cbn [handler] in *.
  - rewrite register_chats. now left.
  - rewrite (proj2 (login_world env req w)). now left.
  - destruct (truthy (chat_message req)) eqn:Hmsg.
    2:{ rewrite (chat_falsy_message env req w Hmsg). now left. }
    revert Hresp. rewrite (chat_spec env req w Hmsg). cbv zeta.
    destruct (truthy (chat_username req)) eqn:Hu; [|now left].
    destruct (db_write_fails env); [now left|].
    cbn [fst snd chats]. intros Hresp Hin.
    apply in_app_or in Hin as [Hin | [<- | []]]; [now left|].
    right. exists req. cbn [new_Chat Chat.username Chat.user Chat.bot
                             Chat.createdAt].
    apply truthy_true in Hmsg as [Hm _]. apply truthy_true in Hu as [Hu _].
    inversion Hresp. repeat split; auto.
  - rewrite (proj2 (history_world env u w)). now left.
  - now left.
Qed.

Lemma run_chats (reqs : list (Env * Request)) (w0 : World) (d : Chat.doc) :
  In d (chats (snd (run reqs w0))) ->
  In d (chats w0)
  \/ exists (env : Env) (req : ChatBody),
      In (env, PostChat req, res_json (reply_body (Chat.bot d)))
         (fst (run reqs w0))
      /\ chat_username req = Some (Chat.username d)
      /\ chat_message req = Some (Chat.user d)
      /\ Chat.createdAt d = now env.
Proof.
  revert w0. induction reqs as [|[env r] reqs IH]; intros w0; cbn [run].
  - now left.
  - destruct (serve env r w0) as [resp w1] eqn:Hserve.
    specialize (IH w1). destruct (run reqs w1) as [log w2]. cbn [fst snd] in *.
    intros Hin. destruct (IH Hin) as [Hbefore | [env' [req [Hlog Hrest]]]].
    + assert (Hin1 : In d (chats (snd (serve env r w0))))
        by now rewrite Hserve.
      destruct (serve_chats env r w0 d Hin1)
        as [Hold | [req [-> [Hu [Hm [Hresp Ht]]]]]]; [now left|].
      right. exists env, req. rewrite Hserve in Hresp. cbn [fst] in Hresp.
      subst resp. repeat split; auto. now left.
    + right. exists env', req. split; [now right | exact Hrest].
Qed.

(** The unique index on [username] is an invariant of the server. *)
Lemma serve_unique_usernames (env : Env) (r : Request) (w : World) :
  unique_usernames (users w) ->
  unique_usernames (users (snd (serve env r w))).
Proof.
  intros Huniq.
  destruct (handler_returns env r w) as [resp Hresp].
  rewrite (serve_handler env r w resp Hresp). cbn [snd]. clear Hresp.
  destruct r as [req|req|req|u|]; cbn [handler].
  - rewrite register_spec.
    destruct (negb (truthy (reg_fullName req))
              || negb (truthy (reg_username req))
              || negb (truthy (reg_password req))); [assumption|].
    cbv zeta. destruct (db_read_fails env); [assumption|].
    destruct (find _ (users w)); [assumption|].
    destruct (negb (User_validate _)); [assumption|].
    destruct (db_write_fails env); [assumption|].
    destruct (username_taken (users w) _) eqn:Hfree; [assumption|].
    cbn [snd users]. now apply unique_usernames_snoc.
  - now rewrite (proj1 (login_world env req w)).
  - now rewrite chat_users.
  - now rewrite (proj1 (history_world env u w)).
  - assumption.
Qed.

Lemma run_unique_usernames (reqs : list (Env * Request)) (w0 : World) :
  unique_usernames (users w0) ->
  unique_usernames (users (snd (run reqs w0))).
Proof.
  revert w0. induction reqs as [|[env r] reqs IH]; intros w0 Huniq; cbn [run].
  - assumption.
  - pose proof (serve_unique_usernames env r w0 Huniq) as H1.
    destruct (serve env r w0) as [resp w1]. cbn [snd] in H1.
    specialize (IH w1 H1). now destruct (run reqs w1).
Qed.

(** Where the documents of a history answer come from: each has the
    username asked for and, unless it was in the log before the sequence
    started, was written by one of the chat calls of the sequence. *)
Lemma history_docs_come_from_chat_calls
        (reqs : list (Env * Request)) (w0 : World)
        (env : Env) (username : field) (resp : Response)
        (docs : list Chat.doc) (d : Chat.doc) :
  fst (history env username (snd (run reqs w0))) = Return resp ->
  body resp = BDocs docs ->
  In d docs ->
  Chat.username d = str username
  /\ (In d (chats w0)
      \/ exists (env_c : Env) (req : ChatBody),
          In (env_c, PostChat req, res_json (reply_body (Chat.bot d)))
             (fst (run reqs w0))
          /\ chat_username req = Some (Chat.username d)
          /\ chat_message req = Some (Chat.user d)
          /\ Chat.createdAt d = now env_c).
Proof.
  intros Hresp Hbody Hin.
  assert (Hlog : In d (chats (snd (run reqs w0)))
                 /\ Chat.username d = str username).
  { rewrite history_spec in Hresp.
    destruct (negb (truthy username)).
    - cbn [fst] in Hresp. inversion Hresp; subst resp.
      cbn [body res_json] in Hbody. inversion Hbody; subst docs.
      destruct Hin.
    - cbn [fst] in Hresp. destruct (db_read_fails env).
      + inversion Hresp; subst resp.
        cbn [body res_status_json] in Hbody. inversion Hbody; subst docs.
        destruct Hin.
      + inversion Hresp; subst resp.
        cbn [body res_json] in Hbody. inversion Hbody; subst docs.
        apply In_chats_of.
        eapply Permutation_in;
          [apply Permutation_sym, sort_by_createdAt_perm | exact Hin]. }
  destruct Hlog as [Hstored Hname].
  split; [exact Hname|]. now apply run_chats.
Qed.

(** C8, as amended. An entry sent by the history operation after any
    sequence of requests has the members [_id], [username], [user], [bot],
    [createdAt] and [__v], in this order: the four paths of [chatSchema]
    under their schema names between the two members Mongoose adds.
    [username] is the username asked for.  Unless the document was in the
    log before the sequence started, it was written by one of the chat
    calls of the sequence: [user] is the message that call supplied, [bot]
    the reply with which it was answered under status 200, [createdAt] the
    time of the call. *)
Theorem history_entries_match_chat_calls
        (reqs : list (Env * Request)) (w0 : World)
        (env : Env) (username : field) (resp : Response)
        (entry : list (jsstring * wire)) :
  fst (history env username (snd (run reqs w0))) = Return resp ->
  In entry (sent_entries (body resp)) ->
  exists d : Chat.doc,
    entry = Chat_toJSON d
    /\ List.map fst entry
       = [lit "_id"; lit "username"; lit "user"; lit "bot"; lit "createdAt";
          lit "__v"]
    /\ wire_member (lit "username") entry = Some (WString (str username))
    /\ wire_member (lit "user") entry = Some (WString (Chat.user d))
    /\ wire_member (lit "bot") entry = Some (WString (Chat.bot d))
    /\ wire_member (lit "createdAt") entry = Some (WDate (Chat.createdAt d))
    /\ (In d (chats w0)
        \/ exists (env_c : Env) (req : ChatBody),
            In (env_c, PostChat req, res_json (reply_body (Chat.bot d)))
               (fst (run reqs w0))
            /\ chat_username req = Some (str username)
            /\ chat_message req = Some (Chat.user d)
            /\ Chat.createdAt d = now env_c).
Proof.
  intros Hresp Hin.
  destruct (body resp) as [members|docs] eqn:Hbody; cbn [sent_entries] in Hin;
    [destruct Hin|].
  apply in_map_iff in Hin as [d [<- Hd]].
  destruct (history_docs_come_from_chat_calls
              reqs w0 env username resp docs d Hresp Hbody Hd)
    as [Hname Hfrom].
  exists d. split; [reflexivity|]. split; [reflexivity|].
  split; [cbn; now rewrite Hname|].
  repeat (split; [reflexivity|]).
  now rewrite <- Hname.
Qed.

End Runs.

(* ================================================================== *)
(** ** The statements at concrete inputs *)



Lemma chat_missing_message_witness :
  chat (env_ok 0 (lit "hello"))
    {| chat_message := Some []; chat_username := Some (lit "ab") |}
    world_with_ab
  = (Return (res_status_json 400 (reply_body (lit "Message required"))),
     world_with_ab).
Proof.
  apply chat_missing_message. right. reflexivity.
Defined.

(** C3, as stated, fails: in a store where [ab] is registered already the
    first of two registrations of [ab] is refused. *)
Lemma register_first_of_two_refused :
  fst (register (bcrypt := toy_bcrypt) (env_ok 1 [])
         (register_body "C D" "ab" "pw2") world_with_ab)
  = Return (res_status_json 400
              (success_message false "User already exists"))
  /\ fst (register (bcrypt := toy_bcrypt) (env_ok 1 [])
            (register_body "C D" "ab" "pw2") world_with_ab)
     <> Return (res_json (success_message true "Registration successful")).
Proof. split; [reflexivity | discriminate]. Qed.

Lemma register_same_username_twice_witness :
  fst (register (bcrypt := toy_bcrypt) (env_ok 1 [])
         (register_body "A B" "ab" "pw1") empty_world)
  = Return (res_json (success_message true "Registration successful"))
  /\ fst (register (bcrypt := toy_bcrypt) (env_ok 2 [])
            (register_body "B A" "ab" "other")
            (snd (register (bcrypt := toy_bcrypt) (env_ok 1 [])
                    (register_body "A B" "ab" "pw1") empty_world)))
     = Return (res_status_json 400
                 (success_message false "User already exists")).
Proof.
  pose proof (register_same_username_twice (bcrypt := toy_bcrypt)
                (env_ok 1 []) (env_ok 2 [])
                (register_body "A B" "ab" "pw1")
                (register_body "B A" "ab" "other") empty_world
                eq_refl eq_refl eq_refl eq_refl eq_refl eq_refl
                (fun d (H : In d []) => match H with end)
                eq_refl eq_refl eq_refl ltac:(discriminate)) as H.
  cbv zeta in H. destruct H as [H1 [H2 _]]. split; assumption.
Defined.



(** C5, as stated, fails: nobody is registered, yet when the user lookup
    is rejected the answer is status 500 "Login failed", not 404. *)
Lemma login_lookup_rejected :
  users empty_world = []
  /\ fst (login (bcrypt := toy_bcrypt) (env_all_down 0)
            (login_body "ab" "pw1") empty_world)
     = Return (res_status_json 500 (success_message false "Login failed"))
  /\ fst (login (bcrypt := toy_bcrypt) (env_all_down 0)
            (login_body "ab" "pw1") empty_world)
     <> Return (res_status_json 404
                  (success_message false "User not found")).
Proof. repeat split; try reflexivity. discriminate. Qed.

Lemma login_cases_witness :
  fst (login (bcrypt := toy_bcrypt) (env_ok 1 [])
         (login_body "ab" "pw1") world_with_ab)
  = Return (res_json
              (BObj [(lit "success", JBool true);
                     (lit "message", JStr (lit "Login successful"));
                     (lit "username", JStr (lit "ab"))]))
  /\ fst (login (bcrypt := toy_bcrypt) (env_ok 1 [])
            (login_body "ab" "wrong") world_with_ab)
     = Return (res_status_json 401
                 (success_message false "Incorrect password"))
  /\ fst (login (bcrypt := toy_bcrypt) (env_ok 1 [])
            (login_body "zz" "pw1") world_with_ab)
     = Return (res_status_json 404 (success_message false "User not found")).
Proof.
  split; [|split].
  - destruct (login_cases (bcrypt := toy_bcrypt) (env_ok 1 [])
                (login_body "ab" "pw1") world_with_ab
                eq_refl eq_refl eq_refl) as [_ [Hfound _]].
    destruct (Hfound _ eq_refl) as [_ [_ [_ Hok]]].
    apply Hok. reflexivity.
  - destruct (login_cases (bcrypt := toy_bcrypt) (env_ok 1 [])
                (login_body "ab" "wrong") world_with_ab
                eq_refl eq_refl eq_refl) as [_ [Hfound _]].
    destruct (Hfound _ eq_refl) as [_ [_ [Hbad _]]].
    apply Hbad. reflexivity.
  - destruct (login_cases (bcrypt := toy_bcrypt) (env_ok 1 [])
                (login_body "zz" "pw1") world_with_ab
                eq_refl eq_refl eq_refl) as [Hnone _].
    apply Hnone. intros d [<- | []]. discriminate.
Defined.

Lemma history_entries_match_chat_calls_witness :
  exists d : Chat.doc,
    Chat_toJSON (Chat.mk (lit "ab") (lit "hi") (lit "hello") 5) = Chat_toJSON d
    /\ wire_member (lit "user")
         (Chat_toJSON (Chat.mk (lit "ab") (lit "hi") (lit "hello") 5))
       = Some (WString (Chat.user d))
    /\ wire_member (lit "bot")
         (Chat_toJSON (Chat.mk (lit "ab") (lit "hi") (lit "hello") 5))
       = Some (WString (Chat.bot d))
    /\ (In d (chats empty_world)
        \/ exists (env_c : Env) (req : ChatBody),
            In (env_c, PostChat req, res_json (reply_body (Chat.bot d)))
               (fst (run (bcrypt := toy_bcrypt)
                       [(env_ok 5 (lit " hello "),
                         PostChat (chat_body "hi" "ab"))] empty_world))
            /\ chat_username req = Some (lit "ab")
            /\ chat_message req = Some (Chat.user d)
            /\ Chat.createdAt d = now env_c).
Proof.
  destruct (history_entries_match_chat_calls (bcrypt := toy_bcrypt)
              [(env_ok 5 (lit " hello "), PostChat (chat_body "hi" "ab"))]
              empty_world (env_ok 9 []) (Some (lit "ab"))
              (res_json
                 (BDocs [Chat.mk (lit "ab") (lit "hi") (lit "hello") 5]))
              (Chat_toJSON (Chat.mk (lit "ab") (lit "hi") (lit "hello") 5))
              eq_refl (or_introl eq_refl))
    as [d [Heq [_ [_ [Huser [Hbot [_ Hfrom]]]]]]].
  exists d. repeat split; assumption.
Defined.

(** C8, as stated, fails: the entry a history request sends after one
    chat call has no member named [userMessage] or [botReply]; the prompt
    and the reply travel under the schema's names [user] and [bot], and the
    members are six, not four. *)
Lemma history_entry_member_names :
  sent_entries
    (body (fst (serve (bcrypt := toy_bcrypt) (env_ok 9 [])
                  (GetHistory (Some (lit "ab")))
                  (snd (run (bcrypt := toy_bcrypt)
                          [(env_ok 5 (lit " hello "),
                            PostChat (chat_body "hi" "ab"))] empty_world)))))
  = [Chat_toJSON (Chat.mk (lit "ab") (lit "hi") (lit "hello") 5)]
  /\ List.map fst (Chat_toJSON (Chat.mk (lit "ab") (lit "hi") (lit "hello") 5))
     = [lit "_id"; lit "username"; lit "user"; lit "bot"; lit "createdAt";
        lit "__v"]
  /\ wire_member (lit "userMessage")
       (Chat_toJSON (Chat.mk (lit "ab") (lit "hi") (lit "hello") 5)) = None
  /\ wire_member (lit "botReply")
       (Chat_toJSON (Chat.mk (lit "ab") (lit "hi") (lit "hello") 5)) = None
  /\ wire_member (lit "user")
       (Chat_toJSON (Chat.mk (lit "ab") (lit "hi") (lit "hello") 5))
     = Some (WString (lit "hi"))
  /\ wire_member (lit "bot")
       (Chat_toJSON (Chat.mk (lit "ab") (lit "hi") (lit "hello") 5))
     = Some (WString (lit "hello")).
Proof. repeat split. Qed.

Lemma register_never_sets_email_witness :
  users (snd (register (bcrypt := toy_bcrypt) (env_ok 1 [])
                (register_body "A B" "ab" "pw1") empty_world))
  = [User.mk (lit "A B") (lit "ab") None
       (toy_hash (lit "pw1") 10 (lit "s4lt"))].
Proof.
  destruct (register_never_sets_email (bcrypt := toy_bcrypt) (env_ok 1 [])
              (register_body "A B" "ab" "pw1") empty_world)
    as [[Hsame | Hnew] _].
  - discriminate Hsame.
  - exact Hnew.
Defined.

(** The scenario of the specification: register, register again, log in
    with a wrong password, log in with the right one. *)
Example credentials_scenario :
  List.map (fun entry => snd entry)
    (fst (run (bcrypt := toy_bcrypt)
            [(env_ok 1 [], PostRegister (register_body "A B" "ab" "pw1"));
             (env_ok 2 [], PostRegister (register_body "A B" "ab" "pw1"));
             (env_ok 3 [], PostLogin (login_body "ab" "wrong"));
             (env_ok 4 [], PostLogin (login_body "ab" "pw1"))]
            empty_world))
  = [res_json (success_message true "Registration successful");
     res_status_json 400 (success_message false "User already exists");
     res_status_json 401 (success_message false "Incorrect password");
     res_json (BObj [(lit "success", JBool true);
                     (lit "message", JStr (lit "Login successful"));
                     (lit "username", JStr (lit "ab"))])].
Proof. reflexivity. Qed.

(** Three chat calls of one user, sent out of clock order and one of them
    with the provider down, then the history: three entries, ascending. *)
Example history_scenario :
  snd (List.last
         (fst (run (bcrypt := toy_bcrypt)
                 [(env_ok 30 (lit "third"), PostChat (chat_body "c" "ab"));
                  (env_provider_down 10, PostChat (chat_body "a" "ab"));
                  (env_ok 20 (lit " second "), PostChat (chat_body "b" "ab"));
                  (env_ok 25 (lit "other"), PostChat (chat_body "x" "zz"));
                  (env_ok 40 [], GetHistory (Some (lit "ab")))]
                 empty_world))
         (env_ok 0 [], GetChatTest, res_json (BDocs [])))
  = res_json
      (BDocs [Chat.mk (lit "ab") (lit "a") degraded_reply 10;
              Chat.mk (lit "ab") (lit "b") (lit "second") 20;
              Chat.mk (lit "ab") (lit "c") (lit "third") 30]).
Proof. reflexivity. Qed.

(** The provider's three failure kinds, and a status outside 2xx. *)
Example provider_failures :
  fst (getAI21Response (env_provider_down 0) (lit "hi") empty_world)
  = Throw TransportError
  /\ fst (getAI21Response (env_http_status 503) (lit "hi") empty_world)
     = Throw (ProviderError 503)
  /\ fst (getAI21Response (env_ok 0 (lit "   ")) (lit "hi") empty_world)
     = Throw EmptyReply.
Proof. repeat split. Qed.

(** A chat call without a username: the reply comes back and the log
    stays as it was. *)
Example anonymous_chat_leaves_log :
  chat (env_ok 5 (lit "hello")) (anonymous_chat_body "hi") world_with_ab
  = (Return (res_json (reply_body (lit "hello"))),
     traced (HttpPost (payload_of (lit "hi"))) world_with_ab).
Proof. reflexivity. Qed.

(* ================================================================== *)
(** ** Trimming *)

Lemma trimStart_split (s : jsstring) :
  exists pre, s = pre ++ trimStart s /\ Forall (fun c => is_ws c = true) pre.
Proof.
  induction s as [|c s [pre [Hs Hpre]]]; [exists []; split; [reflexivity|constructor]|].
  cbn [trimStart]. destruct (is_ws c) eqn:Hc.
  - exists (c :: pre). split; [cbn; now f_equal | now constructor].
  - exists []. split; [reflexivity | constructor].
Qed.

Lemma trimStart_head (s : jsstring) (c : N) (rest : jsstring) :
  trimStart s = c :: rest -> is_ws c = false.
Proof.
  induction s as [|x s IH]; cbn [trimStart]; [discriminate|].
  destruct (is_ws x) eqn:Hx; [exact IH|].
  intros H. inversion H; subst. exact Hx.
Qed.

Lemma trimStart_fixed (c : N) (rest : jsstring) :
  is_ws c = false -> trimStart (c :: rest) = c :: rest.
Proof. intros H. cbn [trimStart]. now rewrite H. Qed.

Lemma trimEnd_split (s : jsstring) :
  exists post, s = trimEnd s ++ post /\ Forall (fun c => is_ws c = true) post.
Proof.
  unfold trimEnd. destruct (trimStart_split (rev s)) as [pre [Hs Hpre]].
  exists (rev pre). split.
  - rewrite <- rev_app_distr, <- Hs. symmetry. apply rev_involutive.
  - apply Forall_rev. exact Hpre.
Qed.

Lemma trimEnd_last (s front : jsstring) (c : N) :
  trimEnd s = front ++ [c] -> is_ws c = false.
Proof.
  unfold trimEnd. intros H.
  apply (f_equal (@rev N)) in H.
  rewrite rev_involutive, rev_app_distr in H. cbn in H.
  exact (trimStart_head _ _ _ H).
Qed.

(** Trimming the end of a string that starts with a non-blank keeps that
    first code unit. *)
Lemma trimEnd_keeps_head (c : N) (rest : jsstring) :
  is_ws c = false ->
  exists rest', trimEnd (c :: rest) = c :: rest'.
Proof.
  intros Hc. destruct (trimEnd_split (c :: rest)) as [post [Hs Hpost]].
  destruct (trimEnd (c :: rest)) as [|c' rest'] eqn:E.
  - cbn in Hs. subst post. inversion Hpost; subst. congruence.
  - cbn in Hs. inversion Hs; subst. now exists rest'.
Qed.

Lemma trim_head (s : jsstring) (c : N) (rest : jsstring) :
  trim s = c :: rest -> is_ws c = false.
Proof.
  unfold trim. destruct (trimStart s) as [|x t] eqn:E.
  - cbn. discriminate.
  - pose proof (trimStart_head _ _ _ E) as Hx.
    destruct (trimEnd_keeps_head x t Hx) as [rest' Hk].
    rewrite Hk. intros H. inversion H; subst. exact Hx.
Qed.

Lemma trim_last (s front : jsstring) (c : N) :
  trim s = front ++ [c] -> is_ws c = false.
Proof. unfold trim. apply trimEnd_last. Qed.

Lemma trim_split (s : jsstring) :
  exists pre post,
    s = pre ++ trim s ++ post
    /\ Forall (fun c => is_ws c = true) pre
    /\ Forall (fun c => is_ws c = true) post.
Proof.
  destruct (trimStart_split s) as [pre [Hs Hpre]].
  destruct (trimEnd_split (trimStart s)) as [post [Ht Hpost]].
  exists pre, post. unfold trim. split; [|split; assumption].
  now rewrite <- Ht.
Qed.

Lemma trimEnd_fixed (s front : jsstring) (c : N) :
  s = front ++ [c] -> is_ws c = false -> trimEnd s = s.
Proof.
  intros -> Hc. unfold trimEnd. rewrite rev_app_distr. cbn [rev app].
  rewrite trimStart_fixed by exact Hc.
  cbn [rev]. now rewrite rev_involutive.
Qed.

Lemma trim_idempotent (s : jsstring) : trim (trim s) = trim s.
Proof.
  destruct (trim s) as [|c rest] eqn:E; [reflexivity|].
  pose proof (trim_head _ _ _ E) as Hc.
  destruct (@exists_last _ (c :: rest)) as [front [z Hz]]; [discriminate|].
  assert (Hlast : is_ws z = false).
  { apply (trim_last s front). now rewrite E. }
  unfold trim at 1. rewrite trimStart_fixed by exact Hc.
  now apply (trimEnd_fixed _ front z).
Qed.

(** What the client returns is never arbitrary text: a returned reply is
    the content string of a 2xx JSON answer with blanks removed at both
    ends and nothing else changed; it is not empty and neither starts nor
    ends with a blank. *)
Lemma getAI21Response_return_inv
      (env : Env) (message : jsstring) (w w' : World) (reply : jsstring) :
  getAI21Response env message w = (Return reply, w') ->
  exists resp json content,
    fetch_outcome env = Responded resp
    /\ resp_ok resp = true
    /\ resp_json resp = Some json
    /\ reply_field json = Some (JStr content)
    /\ reply = trim content
    /\ reply <> [].
Proof.
  unfold getAI21Response, bind. rewrite fetch_spec.
  destruct (fetch_outcome env) as [|resp] eqn:Hf; [discriminate|].
  destruct (resp_ok resp) eqn:Hok; cbn [negb]; [|discriminate].
  unfold json_of. destruct (resp_json resp) as [json|] eqn:Hj; [|discriminate].
  unfold ret at 1. unfold opt_trim.
  destruct (reply_field json) as [[| | |content| |]|] eqn:Hc;
    try discriminate.
  unfold ret at 1. cbn [or_empty].
  destruct (trim content) as [|c t] eqn:Ht; cbn [truthy negb]; [discriminate|].
  unfold ret. intros H. inversion H; subst.
  exists resp, json, content. repeat split; auto. discriminate.
Qed.

(* ================================================================== *)
(** ** More on the completion client and on chat *)

(** X1. A reply the completion client returns is the content string of a
    2xx JSON answer with blanks removed at both ends and nothing else
    changed: it is not empty, its first and last code units are not
    blanks, and the content is the reply between two runs of blanks. *)
Theorem getAI21Response_returns_trimmed_content
        (env : Env) (message : jsstring) (w w' : World) (reply : jsstring) :
  getAI21Response env message w = (Return reply, w') ->
  reply <> []
  /\ (forall c rest, reply = c :: rest -> is_ws c = false)
  /\ (forall front c, reply = front ++ [c] -> is_ws c = false)
  /\ exists (resp : HttpResponse) (json : jval) (content pre post : jsstring),
      fetch_outcome env = Responded resp
      /\ 200 <= resp_status resp <= 299
      /\ resp_json resp = Some json
      /\ reply_field json = Some (JStr content)
      /\ content = pre ++ reply ++ post
      /\ Forall (fun c => is_ws c = true) pre
      /\ Forall (fun c => is_ws c = true) post.
Proof.
  intros H.
  destruct (getAI21Response_return_inv _ _ _ _ _ H)
    as [resp [json [content [Hf [Hok [Hj [Hc [Hr Hne]]]]]]]].
  split; [exact Hne|].
  split; [intros c rest E; apply (trim_head content c rest); congruence|].
  split; [intros front c E; apply (trim_last content front c); congruence|].
  destruct (trim_split content) as [pre [post [Hs [Hpre Hpost]]]].
  exists resp, json, content, pre, post.
  apply resp_ok_2xx in Hok. subst reply. repeat split; auto; tauto.
Qed.

Lemma getAI21Response_returns_trimmed_content_witness :
  lit "hello" <> []
  /\ exists pre post : jsstring,
      lit "  hello " = pre ++ lit "hello" ++ post
      /\ Forall (fun c => is_ws c = true) pre
      /\ Forall (fun c => is_ws c = true) post.
Proof.
  destruct (getAI21Response_returns_trimmed_content
              (env_ok 0 (lit "  hello ")) (lit "hi") empty_world
              (traced (HttpPost (payload_of (lit "hi"))) empty_world)
              (lit "hello") eq_refl)
    as [Hne [_ [_ [resp [json [content [pre [post
         [Hf [_ [Hj [Hc [Hs [Hpre Hpost]]]]]]]]]]]]]].
  split; [exact Hne|]. exists pre, post.
  inversion Hf; subst resp. cbn [resp_json] in Hj.
  inversion Hj; subst json. inversion Hc; subst content.
  repeat split; assumption.
Defined.

(** X2. Whatever a chat request holds and whatever the surroundings do,
    the answer is a [{reply}] object with a non-empty reply, under status
    200, 400 or 500. *)
Theorem chat_reply_never_empty (env : Env) (req : ChatBody) (w : World) :
  exists (code : nat) (reply : jsstring),
    fst (chat env req w) = Return (res_status_json code (reply_body reply))
    /\ reply <> []
    /\ (code = 200 \/ code = 400 \/ code = 500).
Proof.
  destruct (truthy (chat_message req)) eqn:Hmsg.
  - rewrite (chat_spec env req w Hmsg). cbv zeta.
    assert (Hreply : match fst (getAI21Response env (str (chat_message req)) w)
                     with
                     | Return r => r
                     | Throw _ => degraded_reply
                     end <> []).
    { destruct (getAI21Response env (str (chat_message req)) w) as [[r|e] w1]
        eqn:E; cbn [fst]; [|exact degraded_reply_nonempty].
      now destruct (getAI21Response_return_inv _ _ _ _ _ E)
        as [_ [_ [_ [_ [_ [_ [_ [_ Hne]]]]]]]]. }
    destruct (truthy (chat_username req)).
    + destruct (db_write_fails env).
      * exists 500, chat_error_reply.
        split; [reflexivity|]. split; [discriminate | auto].
      * eexists 200, _. split; [reflexivity|]. split; [exact Hreply | auto].
    + eexists 200, _. split; [reflexivity|]. split; [exact Hreply | auto].
  - rewrite (chat_falsy_message env req w Hmsg).
    exists 400, (lit "Message required").
    split; [reflexivity|]. split; [discriminate | auto].
Qed.

(** X3. A chat request with a non-empty message sends exactly one
    completion request, whatever else happens: model [jamba-mini], the
    message verbatim as the single user turn, at most 256 tokens.  The one
    storage operation that can follow it is the insert of the log entry,
    issued when a username is supplied; users are never touched. *)
Theorem chat_effects (env : Env) (req : ChatBody) (w : World) :
  truthy (chat_message req) = true ->
  exists reply : jsstring,
    trace (snd (chat env req w))
    = trace w
      ++ HttpPost {| model := lit "jamba-mini";
                     messages := [(lit "user", str (chat_message req))];
                     max_tokens := 256 |}
         :: (if truthy (chat_username req)
             then [ChatInsert (Chat.mk (str (chat_username req))
                                 (str (chat_message req)) reply (now env))]
             else [])
    /\ users (snd (chat env req w)) = users w.
Proof.
  intros Hmsg. rewrite (chat_spec env req w Hmsg). cbv zeta.
  exists (match fst (getAI21Response env (str (chat_message req)) w) with
          | Return r => r
          | Throw _ => degraded_reply
          end).
  destruct (truthy (chat_username req)); [|split; reflexivity].
  destruct (db_write_fails env); cbn [snd trace traced users];
    rewrite <- app_assoc; split; reflexivity.
Qed.

Lemma chat_effects_witness :
  exists reply : jsstring,
    trace (snd (chat (env_provider_down 3) (chat_body "yo" "ab")
                  world_with_ab))
    = [HttpPost (payload_of (lit "yo"));
       ChatInsert (Chat.mk (lit "ab") (lit "yo") reply 3)].
Proof.
  destruct (chat_effects (env_provider_down 3) (chat_body "yo" "ab")
              world_with_ab eq_refl) as [reply [Htrace _]].
  exists reply. exact Htrace.
Defined.

(* ================================================================== *)
(** ** More on registration and login *)

Lemma find_app_none {A : Type} (f : A -> bool) (l l' : list A) :
  find f l = None -> find f (l ++ l') = find f l'.
Proof.
  induction l as [|a l IH]; cbn; [reflexivity|].
  destruct (f a); [discriminate | exact IH].
Qed.

Section MoreCredentials.

Context {bcrypt : Bcrypt}.

(** What a registration answered with status 200 went through. *)
Lemma register_success_inv
      (env : Env) (req : RegisterBody) (w : World) (resp : Response) :
  fst (register env req w) = Return resp ->
  status resp = 200 ->
  let newUser :=
    new_User (str (reg_fullName req)) (str (reg_username req))
      (bcrypt_hash (str (reg_password req)) 10 (salt env)) in
  truthy (reg_fullName req) = true
  /\ truthy (reg_username req) = true
  /\ truthy (reg_password req) = true
  /\ find (fun d => Js.eqb (User.username d) (str (reg_username req)))
       (users w) = None
  /\ User_validate newUser = true
  /\ users (snd (register env req w)) = users w ++ [newUser].
Proof.
  intros Hresp Hstatus newUser. rewrite register_spec in Hresp |- *.
  destruct (truthy (reg_fullName req));
    [|cbn [fst negb orb] in Hresp; inversion Hresp; subst resp;
      discriminate Hstatus].
  destruct (truthy (reg_username req));
    [|cbn [fst negb orb] in Hresp; inversion Hresp; subst resp;
      discriminate Hstatus].
  destruct (truthy (reg_password req));
    [|cbn [fst negb orb] in Hresp; inversion Hresp; subst resp;
      discriminate Hstatus].
  cbn [negb orb] in *. cbv zeta in *.
  destruct (db_read_fails env);
    [cbn [fst] in Hresp; inversion Hresp; subst resp; discriminate Hstatus|].
  destruct (find _ (users w));
    [cbn [fst] in Hresp; inversion Hresp; subst resp; discriminate Hstatus|].
  fold newUser in Hresp |- *.
  destruct (User_validate newUser);
    [|cbn [fst negb] in Hresp; inversion Hresp; subst resp;
      discriminate Hstatus].
  cbn [negb] in *.
  destruct (db_write_fails env);
    [cbn [fst] in Hresp; inversion Hresp; subst resp; discriminate Hstatus|].
  destruct (username_taken (users w) newUser);
    [cbn [fst] in Hresp; inversion Hresp; subst resp; discriminate Hstatus|].
  repeat split; reflexivity.
Qed.

(** X4. A registration in which any of the three fields is absent or
    empty is answered with status 400 "All fields required" and leaves the
    world as it was: no lookup, no insert. *)
Theorem register_missing_field
        (env : Env) (req : RegisterBody) (w : World) :
  truthy (reg_fullName req) = false
  \/ truthy (reg_username req) = false
  \/ truthy (reg_password req) = false ->
  register env req w
  = (Return (res_status_json 400
               (success_message false "All fields required")), w).
Proof.
  intros H. rewrite register_spec.
  assert (Hguard : negb (truthy (reg_fullName req))
                   || negb (truthy (reg_username req))
                   || negb (truthy (reg_password req)) = true).
  { destruct H as [H | [H | H]]; rewrite H; cbn [negb];
      rewrite ?orb_true_r; reflexivity. }
  now rewrite Hguard.
Qed.

(** X5. A registration with three non-empty fields whose lookup is
    rejected, or whose insert is rejected after a lookup that found
    nobody, is answered with status 500 "Registration failed", and no user
    is added. *)
Theorem register_storage_failure
        (env : Env) (req : RegisterBody) (w : World) :
  truthy (reg_fullName req) = true ->
  truthy (reg_username req) = true ->
  truthy (reg_password req) = true ->
  db_read_fails env = true
  \/ (db_write_fails env = true
      /\ forall d, In d (users w) -> User.username d <> str (reg_username req)) ->
  fst (register env req w)
  = Return (res_status_json 500 (success_message false "Registration failed"))
  /\ users (snd (register env req w)) = users w.
Proof.
  intros Hf Hu Hp Hfail. rewrite register_spec, Hf, Hu, Hp.
  cbn [negb orb]. cbv zeta.
  destruct Hfail as [Hr | [Hw Hfresh]].
  - rewrite Hr. split; reflexivity.
  - destruct (db_read_fails env); [split; reflexivity|].
    apply find_username_none in Hfresh. rewrite Hfresh.
    destruct (negb (User_validate _)); [split; reflexivity|].
    rewrite Hw. split; reflexivity.
Qed.

(** X6. A registration is answered with one of four fixed objects, none
    of which depends on the password or its hash; unless the answer has
    status 200 the users are exactly those from before; the chat log is
    never touched. *)
Theorem register_changes_store_only_on_success
        (env : Env) (req : RegisterBody) (w : World) :
  exists resp : Response,
    fst (register env req w) = Return resp
    /\ In resp
         [res_status_json 400 (success_message false "All fields required");
          res_status_json 400 (success_message false "User already exists");
          res_status_json 500 (success_message false "Registration failed");
          res_json (success_message true "Registration successful")]
    /\ (status resp <> 200 -> users (snd (register env req w)) = users w)
    /\ chats (snd (register env req w)) = chats w.
Proof.
  rewrite register_spec.
  destruct (negb (truthy (reg_fullName req)) || negb (truthy (reg_username req))
            || negb (truthy (reg_password req)));
    [eexists; split; [reflexivity|]; split; [cbn; tauto|];
     split; reflexivity|].
  cbv zeta. destruct (db_read_fails env);
    [eexists; split; [reflexivity|]; split; [cbn; tauto|];
     split; reflexivity|].
  destruct (find _ (users w));
    [eexists; split; [reflexivity|]; split; [cbn; tauto|];
     split; reflexivity|].
  destruct (negb (User_validate _));
    [eexists; split; [reflexivity|]; split; [cbn; tauto|];
     split; reflexivity|].
  destruct (db_write_fails env);
    [eexists; split; [reflexivity|]; split; [cbn; tauto|];
     split; reflexivity|].
  destruct (username_taken (users w) _);
    [eexists; split; [reflexivity|]; split; [cbn; tauto|];
     split; reflexivity|].
  eexists; split; [reflexivity|]. split; [cbn; tauto|].
  split; [|reflexivity]. intros Hne. now destruct Hne.
Qed.

(** X7. A login in which the username or the password is absent or empty
    is answered with status 400 "All fields required" and leaves the world
    as it was: no lookup is issued. *)
Theorem login_missing_field (env : Env) (req : LoginBody) (w : World) :
  truthy (login_username req) = false \/ truthy (login_password req) = false ->
  login env req w
  = (Return (res_status_json 400
               (success_message false "All fields required")), w).
Proof.
  intros H. rewrite login_spec.
  assert (Hguard : negb (truthy (login_username req))
                   || negb (truthy (login_password req)) = true).
  { destruct H as [H | H]; rewrite H; cbn [negb];
      rewrite ?orb_true_r; reflexivity. }
  now rewrite Hguard.
Qed.

(** X8. A login is answered with status 200 only if the store holds a
    user with exactly the supplied username whose stored hash the supplied
    password verifies against; the answer then carries that username and
    nothing else of the user. *)
Theorem login_success_sound
        (env : Env) (req : LoginBody) (w : World) (resp : Response) :
  fst (login env req w) = Return resp ->
  status resp = 200 ->
  exists user : User.doc,
    In user (users w)
    /\ login_username req = Some (User.username user)
    /\ bcrypt_compare (str (login_password req)) (User.password user) = true
    /\ truthy (login_password req) = true
    /\ body resp
       = BObj [(lit "success", JBool true);
               (lit "message", JStr (lit "Login successful"));
               (lit "username", JStr (User.username user))].
Proof.
  intros Hresp Hstatus. rewrite login_spec in Hresp.
  destruct (truthy (login_username req)) eqn:Hu;
    [|cbn [fst negb orb] in Hresp; inversion Hresp; subst resp;
      discriminate Hstatus].
  destruct (truthy (login_password req)) eqn:Hp;
    [|cbn [fst negb orb] in Hresp; inversion Hresp; subst resp;
      discriminate Hstatus].
  cbn [negb orb fst] in Hresp. cbv zeta in Hresp.
  destruct (db_read_fails env);
    [inversion Hresp; subst resp; discriminate Hstatus|].
  destruct (find _ (users w)) as [user|] eqn:Hfind;
    [|inversion Hresp; subst resp; discriminate Hstatus].
  destruct (bcrypt_compare _ _) eqn:Hcmp;
    [|inversion Hresp; subst resp; discriminate Hstatus].
  apply find_username_some in Hfind as [Hin Hname].
  exists user. inversion Hresp; subst resp.
  apply truthy_true in Hu as [Hu _].
  repeat split; auto. rewrite Hu. now f_equal.
Qed.

(** X9. A login never writes: both collections are as before, the one
    operation it may issue is the lookup of the supplied username, and its
    answer is one of four fixed refusals or the success object carrying
    the supplied username. *)
Theorem login_reads_only (env : Env) (req : LoginBody) (w : World) :
  users (snd (login env req w)) = users w
  /\ chats (snd (login env req w)) = chats w
  /\ (trace (snd (login env req w)) = trace w
      \/ trace (snd (login env req w))
         = trace w ++ [UserFindOne (str (login_username req))])
  /\ exists resp : Response,
      fst (login env req w) = Return resp
      /\ In resp
           [res_status_json 400 (success_message false "All fields required");
            res_status_json 404 (success_message false "User not found");
            res_status_json 401 (success_message false "Incorrect password");
            res_status_json 500 (success_message false "Login failed");
            res_json
              (BObj [(lit "success", JBool true);
                     (lit "message", JStr (lit "Login successful"));
                     (lit "username", JStr (str (login_username req)))])].
Proof.
  rewrite login_spec.
  destruct (negb (truthy (login_username req))
            || negb (truthy (login_password req))).
  { repeat split; try reflexivity; [now left|].
    eexists; split; [reflexivity | cbn; tauto]. }
  cbv zeta. cbn [fst snd users chats trace traced].
  repeat split; try reflexivity; [now right|].
  destruct (db_read_fails env);
    [eexists; split; [reflexivity | cbn; tauto]|].
  destruct (find _ (users w)) as [user|] eqn:Hfind;
    [|eexists; split; [reflexivity | cbn; tauto]].
  apply find_username_some in Hfind as [_ Hname].
  destruct (bcrypt_compare _ _);
    [|eexists; split; [reflexivity | cbn; tauto]].
  eexists; split; [reflexivity|]. rewrite Hname. cbn; tauto.
Qed.

(** X10. Register, then log in.  After a registration answered with
    status 200, a login with the same username, any non-empty password and
    a working lookup succeeds with that username exactly when the hashing
    primitive verifies the password against the hash it made of the
    registered one, and is refused with 401 "Incorrect password"
    otherwise. *)
Theorem register_then_login
        (env1 env2 : Env) (reg : RegisterBody) (w : World) (resp : Response)
        (password : field) :
  fst (register env1 reg w) = Return resp ->
  status resp = 200 ->
  truthy password = true ->
  db_read_fails env2 = false ->
  fst (login env2
         {| login_username := reg_username reg; login_password := password |}
         (snd (register env1 reg w)))
  = Return
      (if bcrypt_compare (str password)
            (bcrypt_hash (str (reg_password reg)) 10 (salt env1))
       then res_json
              (BObj [(lit "success", JBool true);
                     (lit "message", JStr (lit "Login successful"));
                     (lit "username", JStr (str (reg_username reg)))])
       else res_status_json 401
              (success_message false "Incorrect password")).
Proof.
  intros Hresp Hstatus Hpw Hdb.
  destruct (register_success_inv env1 reg w resp Hresp Hstatus)
    as [_ [Hu [_ [Hfresh [_ Husers]]]]].
  rewrite login_spec. cbn [login_username login_password].
  rewrite Hu, Hpw, Hdb. cbn [negb orb fst]. cbv zeta.
  rewrite Husers, (find_app_none _ _ _ Hfresh).
  cbn [find new_User User.username User.password]. rewrite eqb_refl.
  now destruct (bcrypt_compare _ _).
Qed.

End MoreCredentials.

Lemma register_missing_field_witness :
  register (bcrypt := toy_bcrypt) (env_ok 1 [])
    {| reg_fullName := Some (lit "A B"); reg_username := Some (lit "ab");
       reg_password := Some [] |} world_with_ab
  = (Return (res_status_json 400
               (success_message false "All fields required")),
     world_with_ab).
Proof.
  apply register_missing_field. right. right. reflexivity.
Defined.

Lemma register_storage_failure_witness :
  fst (register (bcrypt := toy_bcrypt) (env_all_down 1)
         (register_body "A B" "ab" "pw1") empty_world)
  = Return (res_status_json 500 (success_message false "Registration failed"))
  /\ users (snd (register (bcrypt := toy_bcrypt) (env_all_down 1)
                   (register_body "A B" "ab" "pw1") empty_world)) = [].
Proof.
  apply (register_storage_failure (bcrypt := toy_bcrypt) (env_all_down 1)
           (register_body "A B" "ab" "pw1") empty_world
           eq_refl eq_refl eq_refl).
  left. reflexivity.
Defined.

Lemma register_changes_store_only_on_success_witness :
  users (snd (register (bcrypt := toy_bcrypt) (env_ok 1 [])
                (register_body "C D" "ab" "pw2") world_with_ab))
  = users world_with_ab.
Proof.
  destruct (register_changes_store_only_on_success (bcrypt := toy_bcrypt)
              (env_ok 1 []) (register_body "C D" "ab" "pw2") world_with_ab)
    as [resp [Hresp [_ [Hkeep _]]]].
  apply Hkeep. cbn [fst] in Hresp. inversion Hresp. discriminate.
Defined.

Lemma login_missing_field_witness :
  login (bcrypt := toy_bcrypt) (env_ok 1 [])
    {| login_username := Some (lit "ab"); login_password := None |}
    world_with_ab
  = (Return (res_status_json 400
               (success_message false "All fields required")),
     world_with_ab).
Proof.
  apply login_missing_field. right. reflexivity.
Defined.

Lemma login_success_sound_witness :
  exists user : User.doc,
    In user (users world_with_ab)
    /\ Some (lit "ab") = Some (User.username user)
    /\ toy_compare (lit "pw1") (User.password user) = true.
Proof.
  destruct (login_success_sound (bcrypt := toy_bcrypt) (env_ok 1 [])
              (login_body "ab" "pw1") world_with_ab
              (res_json
                 (BObj [(lit "success", JBool true);
                        (lit "message", JStr (lit "Login successful"));
                        (lit "username", JStr (lit "ab"))]))
              eq_refl eq_refl)
    as [user [Hin [Hname [Hcmp _]]]].
  exists user. repeat split; assumption.
Defined.

Lemma register_then_login_witness :
  fst (login (bcrypt := toy_bcrypt) (env_ok 2 [])
         (login_body "ab" "pw1")
         (snd (register (bcrypt := toy_bcrypt) (env_ok 1 [])
                 (register_body "A B" "ab" "pw1") empty_world)))
  = Return (res_json
              (BObj [(lit "success", JBool true);
                     (lit "message", JStr (lit "Login successful"));
                     (lit "username", JStr (lit "ab"))])).
Proof.
  exact (register_then_login (bcrypt := toy_bcrypt) (env_ok 1 []) (env_ok 2 [])
           (register_body "A B" "ab" "pw1") empty_world
           (res_json (success_message true "Registration successful"))
           (Some (lit "pw1")) eq_refl eq_refl eq_refl eq_refl).
Defined.

(* ================================================================== *)
(** ** More on the server over a sequence of requests *)

(** What a chat call answered with status 200 under a supplied username
    went through. *)
Lemma chat_success_inv
      (env : Env) (req : ChatBody) (w : World) (resp : Response) :
  fst (chat env req w) = Return resp ->
  status resp = 200 ->
  truthy (chat_username req) = true ->
  exists reply : jsstring,
    resp = res_json (reply_body reply)
    /\ truthy (chat_message req) = true
    /\ chats (snd (chat env req w))
       = chats w ++ [Chat.mk (str (chat_username req))
                       (str (chat_message req)) reply (now env)].
Proof.
  intros Hresp Hstatus Hu.
  destruct (truthy (chat_message req)) eqn:Hmsg.
  2:{ rewrite (chat_falsy_message env req w Hmsg) in Hresp.
      cbn [fst] in Hresp. inversion Hresp; subst resp. discriminate Hstatus. }
  rewrite (chat_spec env req w Hmsg) in Hresp |- *. cbv zeta in *.
  rewrite Hu in *. destruct (db_write_fails env).
  - cbn [fst] in Hresp. inversion Hresp; subst resp. discriminate Hstatus.
  - cbn [fst snd chats] in *. inversion Hresp; subst resp.
    eexists. repeat split; reflexivity.
Qed.

(** The three statuses of a chat answer. *)
Lemma chat_reply_cases (env : Env) (req : ChatBody) (w : World) :
  exists (code : nat) (reply : jsstring),
    fst (chat env req w) = Return (res_status_json code (reply_body reply))
    /\ (code = 200 \/ code = 400 \/ code = 500).
Proof.
  destruct (truthy (chat_message req)) eqn:Hmsg.
  - rewrite (chat_spec env req w Hmsg). cbv zeta.
    destruct (truthy (chat_username req)).
    + destruct (db_write_fails env).
      * exists 500, chat_error_reply. split; [reflexivity | auto].
      * eexists 200, _. split; [reflexivity | auto].
    + eexists 200, _. split; [reflexivity | auto].
  - rewrite (chat_falsy_message env req w Hmsg).
    exists 400, (lit "Message required"). split; [reflexivity | auto].
Qed.

Section MoreRuns.

Context {bcrypt : Bcrypt}.

Lemma serve_grows (env : Env) (r : Request) (w : World) :
  exists (us : list User.doc) (cs : list Chat.doc),
    users (snd (serve env r w)) = users w ++ us
    /\ chats (snd (serve env r w)) = chats w ++ cs
    /\ Forall (fun d => User.email d = None /\ User_validate d = true) us.
Proof.
  destruct (handler_returns env r w) as [resp Hresp].
  rewrite (serve_handler env r w resp Hresp). cbn [snd]. clear Hresp.
  destruct r as [req|req|req|u|]; cbn [handler].
  - rewrite register_spec.
    destruct (negb (truthy (reg_fullName req))
              || negb (truthy (reg_username req))
              || negb (truthy (reg_password req)));
      [exists [], []; rewrite !app_nil_r; repeat split; constructor|].
    cbv zeta. destruct (db_read_fails env);
      [exists [], []; rewrite !app_nil_r; repeat split; constructor|].
    destruct (find _ (users w));
      [exists [], []; rewrite !app_nil_r; repeat split; constructor|].
    destruct (User_validate _) eqn:Hvalid; cbn [negb];
      [|exists [], []; rewrite !app_nil_r; repeat split; constructor].
    destruct (db_write_fails env);
      [exists [], []; rewrite !app_nil_r; repeat split; constructor|].
    destruct (username_taken (users w) _);
      [exists [], []; rewrite !app_nil_r; repeat split; constructor|].
    eexists [_], []. cbn [snd users chats]. rewrite app_nil_r.
    repeat split. constructor; [|constructor]. split; [reflexivity|exact Hvalid].
  - destruct (login_world env req w) as [Hu Hc].
    exists [], []. rewrite !app_nil_r. repeat split; auto.
  - rewrite chat_users.
    destruct (truthy (chat_message req)) eqn:Hmsg.
    + rewrite (chat_spec env req w Hmsg). cbv zeta.
      destruct (truthy (chat_username req));
        [|exists [], []; rewrite !app_nil_r; repeat split; constructor].
      destruct (db_write_fails env);
        [exists [], []; rewrite !app_nil_r; repeat split; constructor|].
      eexists [], [_]. rewrite app_nil_r. repeat split. constructor.
    + rewrite (chat_falsy_message env req w Hmsg).
      exists [], []. rewrite !app_nil_r. repeat split; constructor.
  - destruct (history_world env u w) as [Hu Hc].
    exists [], []. rewrite !app_nil_r. repeat split; auto.
  - exists [], []. rewrite !app_nil_r. repeat split; constructor.
Qed.

Lemma run_grows (reqs : list (Env * Request)) (w0 : World) :
  exists (us : list User.doc) (cs : list Chat.doc),
    users (snd (run reqs w0)) = users w0 ++ us
    /\ chats (snd (run reqs w0)) = chats w0 ++ cs
    /\ Forall (fun d => User.email d = None /\ User_validate d = true) us.
Proof.
  revert w0. induction reqs as [|[env r] reqs IH]; intros w0; cbn [run].
  - exists [], []. rewrite !app_nil_r. repeat split; constructor.
  - destruct (serve_grows env r w0) as [us1 [cs1 [Hu1 [Hc1 Hv1]]]].
    destruct (serve env r w0) as [resp w1]. cbn [snd] in *.
    destruct (IH w1) as [us2 [cs2 [Hu2 [Hc2 Hv2]]]].
    destruct (run reqs w1) as [log w2]. cbn [snd] in *.
    exists (us1 ++ us2), (cs1 ++ cs2).
    rewrite Hu2, Hc2, Hu1, Hc1, !app_assoc.
    repeat split. apply Forall_app. now split.
Qed.

(** X11. Usernames stay unique: if no two users of the store share a
    username, the same holds after any sequence of requests, under any
    behaviour of storage and provider. *)
Theorem usernames_stay_unique (reqs : list (Env * Request)) (w0 : World) :
  NoDup (List.map User.username (users w0)) ->
  NoDup (List.map User.username (users (snd (run reqs w0)))).
Proof.
  revert w0. induction reqs as [|[env r] reqs IH]; intros w0 Huniq; cbn [run].
  - exact Huniq.
  - pose proof (serve_unique_usernames env r w0 Huniq) as Hnext.
    destruct (serve env r w0) as [resp w1]. cbn [snd] in Hnext.
    specialize (IH w1 Hnext).
    destruct (run reqs w1) as [log w2]. exact IH.
Qed.

(** X12. Nothing is ever updated or deleted: after any sequence of
    requests both collections are the old ones followed by new documents,
    and every user added has a non-empty username, a non-empty password
    field and no email. *)
Theorem collections_are_append_only
        (reqs : list (Env * Request)) (w0 : World) :
  exists (us : list User.doc) (cs : list Chat.doc),
    users (snd (run reqs w0)) = users w0 ++ us
    /\ chats (snd (run reqs w0)) = chats w0 ++ cs
    /\ Forall (fun d => User.email d = None
                        /\ User.username d <> []
                        /\ User.password d <> []) us.
Proof.
  destruct (run_grows reqs w0) as [us [cs [Hu [Hc Hv]]]].
  exists us, cs. split; [exact Hu|]. split; [exact Hc|].
  eapply Forall_impl; [|exact Hv].
  intros d [He Hvalid]. unfold User_validate in Hvalid.
  apply andb_true_iff in Hvalid as [H1 H2].
  apply negb_true_iff, eqb_neq in H1. apply negb_true_iff, eqb_neq in H2.
  auto.
Qed.

(** X13. No exception escapes a handler: every request is answered with
    the response its handler built, and the status is one of 200, 400,
    401, 404 and 500. *)
Theorem every_request_is_answered (env : Env) (r : Request) (w : World) :
  fst (handler env r w) = Return (fst (serve env r w))
  /\ In (status (fst (serve env r w))) [200; 400; 401; 404; 500].
Proof.
  destruct (handler_returns env r w) as [resp Hresp].
  rewrite (serve_handler env r w resp Hresp). cbn [fst].
  split; [exact Hresp|].
  destruct r as [req|req|req|u|]; cbn [handler] in Hresp.
  - rewrite register_spec in Hresp.
    destruct (negb (truthy (reg_fullName req))
              || negb (truthy (reg_username req))
              || negb (truthy (reg_password req)));
      [inversion Hresp; cbn; tauto|].
    cbv zeta in Hresp.
    destruct (db_read_fails env); [inversion Hresp; cbn; tauto|].
    destruct (find _ (users w)); [inversion Hresp; cbn; tauto|].
    destruct (negb (User_validate _)); [inversion Hresp; cbn; tauto|].
    destruct (db_write_fails env); [inversion Hresp; cbn; tauto|].
    destruct (username_taken (users w) _); inversion Hresp; cbn; tauto.
  - rewrite login_spec in Hresp.
    destruct (negb (truthy (login_username req))
              || negb (truthy (login_password req)));
      [inversion Hresp; cbn; tauto|].
    cbv zeta in Hresp. cbn [fst] in Hresp.
    destruct (db_read_fails env); [inversion Hresp; cbn; tauto|].
    destruct (find _ (users w)); [|inversion Hresp; cbn; tauto].
    destruct (bcrypt_compare _ _); inversion Hresp; cbn; tauto.
  - destruct (chat_reply_cases env req w) as [code [reply [Hc Hcode]]].
    rewrite Hc in Hresp. inversion Hresp.
    destruct Hcode as [-> | [-> | ->]]; cbn; tauto.
  - rewrite history_spec in Hresp.
    destruct (negb (truthy u)); [inversion Hresp; cbn; tauto|].
    cbn [fst] in Hresp.
    destruct (db_read_fails env); inversion Hresp; cbn; tauto.
  - inversion Hresp; cbn; tauto.
Qed.

End MoreRuns.

(** Unless a registration is answered with status 200 the users are those
    from before. *)
Lemma register_changes_store_cases
      {bcrypt : Bcrypt} (env : Env) (req : RegisterBody) (w : World) :
  exists resp : Response,
    fst (register env req w) = Return resp
    /\ (status resp <> 200 -> users (snd (register env req w)) = users w).
Proof.
  rewrite register_spec.
  destruct (negb (truthy (reg_fullName req)) || negb (truthy (reg_username req))
            || negb (truthy (reg_password req)));
    [eexists; split; reflexivity|].
  cbv zeta. destruct (db_read_fails env); [eexists; split; reflexivity|].
  destruct (find _ (users w)); [eexists; split; reflexivity|].
  destruct (negb (User_validate _)); [eexists; split; reflexivity|].
  destruct (db_write_fails env); [eexists; split; reflexivity|].
  destruct (username_taken (users w) _); [eexists; split; reflexivity|].
  eexists; split; [reflexivity|]. intros Hne. now destruct Hne.
Qed.

Section Effects.

Context {bcrypt : Bcrypt}.

(** X14. What each route lets out of the process, in order.  A
    registration issues nothing, or the lookup of the username, or that
    lookup followed by the insert of the new user; a login nothing or the
    lookup; a chat call nothing, or one completion request, or that
    request followed by the insert of one log entry; a history request
    nothing or one query; the probe nothing.  In particular only chat
    calls the provider, and no route issues more than two operations. *)
Theorem serve_effects (env : Env) (r : Request) (w : World) :
  exists events : list Event,
    trace (snd (serve env r w)) = trace w ++ events
    /\ match r with
       | PostRegister req =>
           let u := str (reg_username req) in
           events = [] \/ events = [UserFindOne u]
           \/ events
              = [UserFindOne u;
                 UserInsert
                   (new_User (str (reg_fullName req)) u
                      (bcrypt_hash (str (reg_password req)) 10 (salt env)))]
       | PostLogin req =>
           events = [] \/ events = [UserFindOne (str (login_username req))]
       | PostChat req =>
           let p := payload_of (str (chat_message req)) in
           events = [] \/ events = [HttpPost p]
           \/ exists d : Chat.doc, events = [HttpPost p; ChatInsert d]
       | GetHistory u => events = [] \/ events = [ChatFind (str u)]
       | GetChatTest => events = []
       end.
Proof.
  destruct (handler_returns env r w) as [resp Hresp].
  rewrite (serve_handler env r w resp Hresp). cbn [snd]. clear Hresp.
  destruct r as [req|req|req|u|]; cbn [handler].
  - rewrite register_spec. cbv zeta.
    destruct (negb (truthy (reg_fullName req))
              || negb (truthy (reg_username req))
              || negb (truthy (reg_password req)));
      [exists []; rewrite app_nil_r; auto|].
    destruct (db_read_fails env);
      [eexists [_]; split; [reflexivity | auto]|].
    destruct (find _ (users w));
      [eexists [_]; split; [reflexivity | auto]|].
    destruct (negb (User_validate _));
      [eexists [_]; split; [reflexivity | auto]|].
    destruct (db_write_fails env);
      [eexists [_; _]; split;
       [cbn [snd trace traced]; now rewrite <- app_assoc | auto]|].
    destruct (username_taken (users w) _);
      eexists [_; _]; (split;
       [cbn [snd trace traced]; now rewrite <- app_assoc | auto]).
  - rewrite login_spec.
    destruct (negb (truthy (login_username req))
              || negb (truthy (login_password req)));
      [exists []; rewrite app_nil_r; auto|].
    eexists [_]; split; [reflexivity | auto].
  - destruct (truthy (chat_message req)) eqn:Hmsg.
    + rewrite (chat_spec env req w Hmsg). cbv zeta.
      destruct (truthy (chat_username req));
        [|eexists [_]; split; [reflexivity | auto]].
      destruct (db_write_fails env);
        eexists [_; _]; (split;
         [cbn [snd trace traced]; now rewrite <- app_assoc
         | right; right; eexists; reflexivity]).
    + rewrite (chat_falsy_message env req w Hmsg).
      exists []. rewrite app_nil_r. auto.
  - rewrite history_spec.
    destruct (negb (truthy u)); [exists []; rewrite app_nil_r; auto|].
    eexists [_]; split; [reflexivity | auto].
  - exists []. rewrite app_nil_r. auto.
Qed.

(** X15. Who writes what.  A request that changes the users is a
    registration answered with status 200; a request that changes the chat
    log is a chat call with a supplied username answered with status 200.
    Logins, history requests, the probe and every refused or failed
    request leave both collections as they were. *)
Theorem serve_frame (env : Env) (r : Request) (w : World) :
  (users (snd (serve env r w)) <> users w ->
   exists req, r = PostRegister req /\ status (fst (serve env r w)) = 200)
  /\ (chats (snd (serve env r w)) <> chats w ->
      exists req,
        r = PostChat req
        /\ truthy (chat_username req) = true
        /\ status (fst (serve env r w)) = 200).
Proof.
  destruct (handler_returns env r w) as [resp Hresp].
  rewrite (serve_handler env r w resp Hresp). cbn [fst snd].
  destruct r as [req|req|req|u|]; cbn [handler] in *.
  - split.
    + intros Hchanged. exists req. split; [reflexivity|].
      destruct (register_changes_store_cases env req w) as [resp' [Hr Hkeep]].
      rewrite Hr in Hresp. inversion Hresp; subst resp'.
      destruct (Nat.eq_dec (status resp) 200) as [E|E]; [exact E|].
      exfalso. apply Hchanged. now apply Hkeep.
    + rewrite register_chats. intros H. now destruct H.
  - destruct (login_world env req w) as [Hu Hc]. rewrite Hu, Hc.
    split; intros H; now destruct H.
  - split; [rewrite chat_users; intros H; now destruct H|].
    intros Hchanged. exists req.
    destruct (truthy (chat_message req)) eqn:Hmsg.
    2:{ exfalso. apply Hchanged.
        now rewrite (chat_falsy_message env req w Hmsg). }
    revert Hresp Hchanged. rewrite (chat_spec env req w Hmsg). cbv zeta.
    destruct (truthy (chat_username req));
      [|intros _ H; exfalso; now apply H].
    destruct (db_write_fails env);
      [intros _ H; exfalso; now apply H|].
    cbn [fst]. intros Hresp _. inversion Hresp. auto.
  - destruct (history_world env u w) as [Hu Hc]. rewrite Hu, Hc.
    split; intros H; now destruct H.
  - split; intros H; now destruct H.
Qed.

(** X16. Chat, then history.  A chat call with a supplied username that
    was answered with status 200 has put its exchange in the log for good:
    after any further requests, a history request for that username whose
    query does not fail returns, among its entries, the one made of that
    username, the message sent, the reply that was returned and the time
    of the call. *)
Theorem chat_entry_retrievable
        (env : Env) (req : ChatBody) (w : World) (resp : Response)
        (reqs : list (Env * Request)) (env_h : Env) :
  fst (chat env req w) = Return resp ->
  status resp = 200 ->
  truthy (chat_username req) = true ->
  db_read_fails env_h = false ->
  exists (reply : jsstring) (docs : list Chat.doc),
    body resp = reply_body reply
    /\ fst (history env_h (chat_username req)
              (snd (run reqs (snd (chat env req w)))))
       = Return (res_json (BDocs docs))
    /\ In (Chat.mk (str (chat_username req)) (str (chat_message req))
             reply (now env)) docs.
Proof.
  intros Hresp Hstatus Hu Hdb.
  destruct (chat_success_inv env req w resp Hresp Hstatus Hu)
    as [reply [-> [_ Hchats]]].
  destruct (run_grows reqs (snd (chat env req w))) as [us [cs [_ [Hc _]]]].
  exists reply. eexists. split; [reflexivity|].
  rewrite history_spec, Hu, Hdb. cbn [negb fst]. split; [reflexivity|].
  eapply Permutation_in; [apply sort_by_createdAt_perm|].
  apply In_chats_of. split; [|reflexivity].
  rewrite Hc, Hchats. apply in_or_app. left.
  apply in_or_app. right. now left.
Qed.

End Effects.

(* ================================================================== *)
(** ** The further statements at concrete inputs *)

Lemma reply_field_first_choice_witness :
  reply_field
    (JObj [(lit "id", JStr (lit "cmpl-1"));
           (lit "choices",
            JArr [JObj [(lit "index", JNum 0);
                        (lit "message",
                         JObj [(lit "role", JStr (lit "assistant"));
                               (lit "content", JStr (lit "first"))])];
                  JObj [(lit "index", JNum 1);
                        (lit "message",
                         JObj [(lit "content", JStr (lit "second"))])]])])
  = Some (JStr (lit "first")).
Proof.
  eapply reply_field_first_choice; reflexivity.
Defined.

Lemma getAI21Response_transport_error_witness :
  getAI21Response (env_provider_down 0) (lit "hi") world_with_ab
  = (Throw TransportError,
     traced (HttpPost (payload_of (lit "hi"))) world_with_ab).
Proof.
  apply getAI21Response_transport_error. reflexivity.
Defined.

Lemma getAI21Response_invalid_json_witness :
  getAI21Response (env_http_status 200) (lit "hi") empty_world
  = (Throw InvalidJson, traced (HttpPost (payload_of (lit "hi"))) empty_world).
Proof.
  eapply getAI21Response_invalid_json; reflexivity.
Defined.

Lemma getAI21Response_type_error_witness :
  getAI21Response
    {| now := 0; salt := []; db_read_fails := false; db_write_fails := false;
       fetch_outcome :=
         Responded {| resp_status := 200; resp_text := [];
                      resp_json :=
                        Some (JObj [(lit "choices",
                                     JArr [JObj [(lit "message",
                                                  JObj [(lit "content",
                                                         JNum 42)])]])]) |} |}
    (lit "hi") empty_world
  = (Throw TypeError, traced (HttpPost (payload_of (lit "hi"))) empty_world).
Proof.
  eapply getAI21Response_type_error with (content := JNum 42);
    try reflexivity; [discriminate | intros s; discriminate].
Defined.

Lemma chat_status_ignores_provider_witness :
  status (res_json (reply_body (lit "hello")))
  = status (res_json (reply_body degraded_reply)).
Proof.
  apply (chat_status_ignores_provider
           (env_ok 5 (lit "hello")) (env_provider_down 6)
           (chat_body "hi" "ab") world_with_ab
           (res_json (reply_body (lit "hello")))
           (res_json (reply_body degraded_reply))
           eq_refl eq_refl eq_refl).
Defined.

Lemma usernames_stay_unique_witness :
  NoDup
    (List.map User.username
       (users
          (snd (run (bcrypt := toy_bcrypt)
                  [(env_ok 1 [], PostRegister (register_body "C D" "cd" "x"));
                   (env_ok 2 [], PostRegister (register_body "E F" "ab" "y"));
                   (env_ok 3 [], PostRegister (register_body "G H" "cd" "z"))]
                  world_with_ab)))).
Proof.
  apply (usernames_stay_unique (bcrypt := toy_bcrypt)).
  constructor; [intros [] | constructor].
Defined.

Lemma serve_frame_witness :
  exists req : RegisterBody,
    PostRegister (register_body "A B" "ab" "pw1") = PostRegister req
    /\ status (fst (serve (bcrypt := toy_bcrypt) (env_ok 1 [])
                      (PostRegister (register_body "A B" "ab" "pw1"))
                      empty_world)) = 200.
Proof.
  apply (proj1 (serve_frame (bcrypt := toy_bcrypt) (env_ok 1 [])
                  (PostRegister (register_body "A B" "ab" "pw1"))
                  empty_world)).
  discriminate.
Defined.

Lemma chat_entry_retrievable_witness :
  exists (reply : jsstring) (docs : list Chat.doc),
    body (res_json (reply_body (lit "hello"))) = reply_body reply
    /\ fst (history (env_ok 9 []) (Some (lit "ab"))
              (snd (run (bcrypt := toy_bcrypt)
                      [(env_ok 6 (lit "x"), PostChat (chat_body "yo" "zz"));
                       (env_all_down 7, PostChat (chat_body "again" "ab"))]
                      (snd (chat (env_ok 5 (lit " hello "))
                              (chat_body "hi" "ab") empty_world)))))
       = Return (res_json (BDocs docs))
    /\ In (Chat.mk (lit "ab") (lit "hi") reply 5) docs.
Proof.
  exact (chat_entry_retrievable (bcrypt := toy_bcrypt)
           (env_ok 5 (lit " hello ")) (chat_body "hi" "ab") empty_world
           (res_json (reply_body (lit "hello")))
           [(env_ok 6 (lit "x"), PostChat (chat_body "yo" "zz"));
            (env_all_down 7, PostChat (chat_body "again" "ab"))]
           (env_ok 9 []) eq_refl eq_refl eq_refl eq_refl).
Defined.

(* ================================================================== *)
(** ** More on history *)

Lemma sort_by_createdAt_sorted_input (l : list Chat.doc) :
  StronglySorted (fun a b => (Chat.createdAt a < Chat.createdAt b)%Z) l ->
  sort_by_createdAt l = l.
Proof.
  induction 1 as [|d l Hs IH Hall]; [reflexivity|].
  cbn [sort_by_createdAt fold_right]. fold (sort_by_createdAt l). rewrite IH.
  destruct l as [|d' rest]; [reflexivity|].
  cbn [insert_by_createdAt].
  inversion Hall as [|? ? Hlt _]; subst.
  assert (Hle : (Chat.createdAt d <=? Chat.createdAt d')%Z = true)
    by (apply Z.leb_le; lia).
  now rewrite Hle.
Qed.

Lemma chats_of_app (u : jsstring) (l l' : list Chat.doc) :
  chats_of u (l ++ l') = chats_of u l ++ chats_of u l'.
Proof. unfold chats_of. apply filter_app. Qed.

(** X22. One user's chat call never shows in another's history: after a
    chat call made under a username different from the one asked for, a
    history request is answered exactly as it would have been before the
    call. *)
Theorem history_ignores_other_users
        (env env_h : Env) (req : ChatBody) (username : field) (w : World) :
  str (chat_username req) <> str username ->
  fst (history env_h username (snd (chat env req w)))
  = fst (history env_h username w).
Proof.
  intros Hother. rewrite !history_spec.
  destruct (negb (truthy username)); [reflexivity|].
  cbn [fst]. destruct (db_read_fails env_h); [reflexivity|].
  do 3 f_equal.
  destruct (truthy (chat_message req)) eqn:Hmsg.
  2:{ now rewrite (chat_falsy_message env req w Hmsg). }
  rewrite (chat_spec env req w Hmsg). cbv zeta.
  destruct (truthy (chat_username req)); [|reflexivity].
  destruct (db_write_fails env); [reflexivity|].
  cbn [snd chats]. rewrite chats_of_app.
  cbn [chats_of filter new_Chat Chat.username].
  apply eqb_neq in Hother. rewrite Hother. now rewrite app_nil_r.
Qed.

Lemma history_ignores_other_users_witness :
  fst (history (env_ok 9 []) (Some (lit "ab"))
         (snd (chat (env_ok 8 (lit "hey")) (chat_body "yo" "zz")
                 world_with_ab)))
  = fst (history (env_ok 9 []) (Some (lit "ab")) world_with_ab).
Proof.
  apply history_ignores_other_users. discriminate.
Defined.

(** X23. When the entries of a user sit in the log with strictly
    increasing creation times, a history request with a working query
    returns them in exactly the order of the log. *)
Theorem history_keeps_log_order (env : Env) (username : field) (w : World) :
  truthy username = true ->
  db_read_fails env = false ->
  StronglySorted (fun a b => (Chat.createdAt a < Chat.createdAt b)%Z)
    (chats_of (str username) (chats w)) ->
  fst (history env username w)
  = Return (res_json (BDocs (chats_of (str username) (chats w)))).
Proof.
  intros Hu Hdb Hsorted. rewrite history_spec, Hu, Hdb. cbn [negb fst].
  now rewrite (sort_by_createdAt_sorted_input _ Hsorted).
Qed.

Lemma history_keeps_log_order_witness :
  fst (history (env_ok 9 []) (Some (lit "ab"))
         {| users := [];
            chats := [Chat.mk (lit "ab") (lit "a") (lit "1") 10;
                      Chat.mk (lit "zz") (lit "x") (lit "2") 5;
                      Chat.mk (lit "ab") (lit "b") (lit "3") 20];
            trace := [] |})
  = Return (res_json
              (BDocs [Chat.mk (lit "ab") (lit "a") (lit "1") 10;
                      Chat.mk (lit "ab") (lit "b") (lit "3") 20])).
Proof.
  apply (history_keeps_log_order (env_ok 9 []) (Some (lit "ab"))
           {| users := [];
              chats := [Chat.mk (lit "ab") (lit "a") (lit "1") 10;
                        Chat.mk (lit "zz") (lit "x") (lit "2") 5;
                        Chat.mk (lit "ab") (lit "b") (lit "3") 20];
              trace := [] |} eq_refl eq_refl).
  repeat constructor.
Defined.
